(** * Axiom: the intent store of a repository

    A shallow embedding of [intent_core.py] and [axiom.py].

    The program keeps, under the root of a git repository, a directory
    [.intent/] with an SQLite database [intent.db] and a descriptor
    [meta.json].  The embedding follows the source function by function:

    - paths are lists of components, nearest component first, so that
      [Path.parent] is [tail] and the filesystem root is [[]];
    - the filesystem is a finite map from paths to nodes (a directory, a
      text file, or a database file); the map is taken to describe a
      filesystem, so the directory that holds an entry exists;
    - a database is its set of table names and the rows of [intents];
    - a command is a function on the world that returns an outcome
      ([Ok], [sys.exit] with a message, or an uncaught exception) and the
      world it leaves behind;
    - what the environment chooses ([uuid.uuid4()], [datetime.now()], the
      lines typed on standard input) is an argument of the command;
    - a text is the sequence of the bytes of its UTF-8 encoding;
    - the [json] module, [str(e)] of an exception, the order in which a
      Python set is iterated and the decoding of a binary file are the
      platform's, collected in the class [Platform].

    Text printed on standard output is not modelled: [cmd_list] and
    [cmd_show] return the rows they print. *)

From Stdlib Require Import Ascii String DecimalString Sorted Permutation.
From stdpp Require Import gmap strings list sorting.

#[local] Set Warnings "-register-all,-clear-no-such-hyp".

(** ** Strings *)

Definition nl : string := String "010"%char EmptyString.
Definition dquote : string := String "034"%char EmptyString.

(** [sep.join(l)] *)
Definition join (sep : string) (l : list string) : string := String.concat sep l.

(** [str(n)] for a natural number. *)
Definition str_nat (n : nat) : string := NilZero.string_of_uint (Nat.to_uint n).

Definition byte_in (lo hi : nat) (c : ascii) : bool :=
  Nat.leb lo (nat_of_ascii c) && Nat.leb (nat_of_ascii c) hi.

Definition byte_is (n : nat) (c : ascii) : bool := Nat.eqb (nat_of_ascii c) n.

(** The bytes are the UTF-8 encoding of a Python [str]: every character
    is one byte below 128, or a lead byte with the continuation bytes it
    announces, in the shortest form and below U+110000. *)
Fixpoint utf8_valid (s : string) : bool :=
  match s with
  | EmptyString => true
  | String c s1 =>
      if byte_in 0 127 c then utf8_valid s1
      else
        match s1 with
        | String d s2 =>
            if byte_in 194 223 c then byte_in 128 191 d && utf8_valid s2
            else
              match s2 with
              | String e s3 =>
                  if byte_in 224 239 c then
                    byte_in (if byte_is 224 c then 160 else 128)
                            (if byte_is 237 c then 159 else 191) d
                    && byte_in 128 191 e && utf8_valid s3
                  else
                    match s3 with
                    | String f s4 =>
                        byte_in 240 244 c
                        && byte_in (if byte_is 240 c then 144 else 128)
                                   (if byte_is 244 c then 143 else 191) d
                        && byte_in 128 191 e && byte_in 128 191 f && utf8_valid s4
                    | EmptyString => false
                    end
              | EmptyString => false
              end
        | EmptyString => false
        end
  end.

(** [len(s)]: the number of characters, that is, of the bytes that do not
    continue a character. *)
Fixpoint str_len (s : string) : nat :=
  match s with
  | EmptyString => 0
  | String c s' => (if byte_in 128 191 c then 0 else 1) + str_len s'
  end.

(** The text after the bytes that continue the character before it. *)
Fixpoint skip_continuation (s : string) : string :=
  match s with
  | String c s' => if byte_in 128 191 c then skip_continuation s' else s
  | EmptyString => EmptyString
  end.

(** The characters [str.strip()] removes, by the bytes of their encoding.
    One byte: U+0009 to U+000D and U+001C to U+0020. *)
Definition is_space (c : ascii) : bool := byte_in 9 13 c || byte_in 28 32 c.

(** Two bytes: U+0085 and U+00A0. *)
Definition is_space2 (c d : ascii) : bool :=
  byte_is 194 c && (byte_is 133 d || byte_is 160 d).

(** Three bytes: U+1680; U+2000 to U+200A, U+2028, U+2029 and U+202F;
    U+205F; U+3000. *)
Definition is_space3 (c d e : ascii) : bool :=
  (byte_is 225 c && byte_is 154 d && byte_is 128 e)
  || (byte_is 226 c && byte_is 128 d
      && (byte_in 128 138 e || byte_is 168 e || byte_is 169 e || byte_is 175 e))
  || (byte_is 226 c && byte_is 129 d && byte_is 159 e)
  || (byte_is 227 c && byte_is 128 d && byte_is 128 e).

Fixpoint lstrip (s : string) : string :=
  match s with
  | String c s1 =>
      if is_space c then lstrip s1
      else
        match s1 with
        | String d s2 =>
            if is_space2 c d then lstrip s2
            else
              match s2 with
              | String e s3 => if is_space3 c d e then lstrip s3 else s
              | EmptyString => s
              end
        | EmptyString => s
        end
  | EmptyString => EmptyString
  end.

(** [rstrip] on the reversed text: the last byte comes first. *)
Fixpoint rstrip_reversed (r : string) : string :=
  match r with
  | String e r1 =>
      if is_space e then rstrip_reversed r1
      else
        match r1 with
        | String d r2 =>
            if is_space2 d e then rstrip_reversed r2
            else
              match r2 with
              | String c r3 => if is_space3 c d e then rstrip_reversed r3 else r
              | EmptyString => r
              end
        | EmptyString => r
        end
  | EmptyString => EmptyString
  end.

Definition rstrip (s : string) : string :=
  String.rev (rstrip_reversed (String.rev s)).

Definition strip (s : string) : string := rstrip (lstrip s).

(** SQLite folds the case of the ASCII letters when it compares the
    characters of a [LIKE] pattern and when it looks up a table by its
    name. *)
Definition to_upper (c : ascii) : ascii :=
  let n := nat_of_ascii c in
  if Nat.leb 97 n && Nat.leb n 122 then ascii_of_nat (n - 32) else c.

Fixpoint upper_text (s : string) : string :=
  match s with
  | String c s' => String (to_upper c) (upper_text s')
  | EmptyString => EmptyString
  end.

(** The canonical text of a UUID, as [str(uuid.uuid4())] gives it: groups
    of 8, 4, 4, 4 and 12 lower-case hexadecimal digits with hyphens
    between them. *)
Definition is_hex (c : ascii) : bool := byte_in 48 57 c || byte_in 97 102 c.

Fixpoint hex_run (n : nat) (s : string) : option string :=
  match n with
  | O => Some s
  | S n' =>
      match s with
      | String c s' => if is_hex c then hex_run n' s' else None
      | EmptyString => None
      end
  end.

Definition hyphen_then (k : string -> bool) (s : option string) : bool :=
  match s with
  | Some (String c s') => Ascii.eqb c "-" && k s'
  | _ => false
  end.

Definition uuid_text (s : string) : bool :=
  hyphen_then (fun s1 =>
    hyphen_then (fun s2 =>
      hyphen_then (fun s3 =>
        hyphen_then (fun s4 =>
          match hex_run 12 s4 with
          | Some EmptyString => true
          | _ => false
          end) (hex_run 4 s3)) (hex_run 4 s2)) (hex_run 4 s1)) (hex_run 8 s).

(** [needle in hay] for two strings. *)
Fixpoint is_substring (needle hay : string) : bool :=
  String.prefix needle hay ||
  match hay with
  | String _ hay' => is_substring needle hay'
  | EmptyString => false
  end.

(** ** Paths and the filesystem *)

(** A resolved absolute path, nearest component first: [/a/b] is
    [["b"; "a"]] and the filesystem root is [[]]. *)
Definition path := list string.

Definition parent (p : path) : path := tail p.

Definition child (p : path) (name : string) : path := name :: p.

Notation "p // name" := (child p name) (at level 40, left associativity).

(** [str(p)] on a POSIX system. *)
Definition path_str (p : path) : string :=
  match p with
  | [] => "/"
  | _ => fold_right (fun c acc => acc +:+ "/" +:+ c) "" p
  end.

(** ** Records of the store *)

Record intent := mk_intent {
  id : string;
  title : string;
  problem : string;
  context : string;
  constraints : string;
  status : string;
  created_at : string;
  updated_at : string
}.

(** The tables named in [sqlite_master] and the rows of [intents] in
    insertion order.  A table named [intents] has the columns
    [create_database_schema] declares; the rows of the other tables are
    neither read nor written by any operation and are left out. *)
Record database := mk_database {
  db_tables : gset string;
  db_intents : list intent
}.

Definition empty_database : database := mk_database ∅ [].

Inductive node :=
  | Dir
  | File (text : string)
  | DbFile (db : database).

Record world := mk_world {
  cwd : path;
  fs : gmap path node
}.

(** ** Outcomes *)

Inductive exn :=
  | FileExistsError (p : path)
  | FileNotFoundError (p : path)
  | IsADirectoryError (p : path)
  | OperationalError (msg : string)
  | DatabaseError (msg : string)
  | IntegrityError (msg : string)
  | JSONDecodeError
  | UnicodeDecodeError
  | TypeError
  | EOFError.

Definition is_OSError (e : exn) : bool :=
  match e with
  | FileExistsError _ | FileNotFoundError _ | IsADirectoryError _ => true
  | _ => false
  end.

Definition is_sqlite3_Error (e : exn) : bool :=
  match e with
  | OperationalError _ | DatabaseError _ | IntegrityError _ => true
  | _ => false
  end.

Definition is_JSONDecodeError (e : exn) : bool :=
  match e with JSONDecodeError => true | _ => false end.

Inductive outcome (A : Type) :=
  | Ok (a : A)
  | Exit (msg : string)
  | Raise (e : exn).

Arguments Ok {A} a.
Arguments Exit {A} msg.
Arguments Raise {A} e.

(** ** JSON values *)

Inductive json :=
  | JNull
  | JBool (b : bool)
  | JNum (literal : string)
  | JStr (s : string)
  | JArr (items : list json)
  | JObj (members : list (string * json)).

Definition is_JStr (s : string) (v : json) : bool :=
  match v with JStr s' => String.eqb s s' | _ => false end.

(** [field in data] for a decoded JSON value [data]: key membership in a
    dict, element membership in a list, substring in a string, and a
    [TypeError] for [None], a bool or a number. *)
Definition py_in (field : string) (data : json) : outcome bool :=
  match data with
  | JObj members => Ok (existsb (fun kv => String.eqb field (fst kv)) members)
  | JArr items => Ok (existsb (is_JStr field) items)
  | JStr s => Ok (is_substring field s)
  | JNull | JBool _ | JNum _ => Raise TypeError
  end.

(** [all(field in data for field in fields)], left to right, stopping at
    the first field that is absent. *)
Fixpoint all_in (fields : list string) (data : json) : outcome bool :=
  match fields with
  | [] => Ok true
  | field :: rest =>
      match py_in field data with
      | Ok true => all_in rest data
      | Ok false => Ok false
      | Exit msg => Exit msg
      | Raise e => Raise e
      end
  end.

(** ** The platform *)

Class Platform := {
  (** [json.loads]; [None] is [json.JSONDecodeError] *)
  json_loads : string -> option json;
  (** [json.dumps(_, indent=2)] *)
  json_dumps : json -> string;
  (** [str(e)] *)
  str_exn : exn -> string;
  (** the order in which Python iterates a set of strings; it changes
      with the hash seed of the process *)
  set_order : gset string -> list string;
  set_order_elements : forall names, set_order names ≡ₚ elements names;
  (** the bytes of a database file read as UTF-8 text; [None] is
      [UnicodeDecodeError] *)
  db_text : database -> option string
}.

(** ** Commands *)

Definition M (A : Type) : Type := world -> outcome A * world.

Definition ret {A} (a : A) : M A := fun w => (Ok a, w).

Definition bind {A B} (m : M A) (k : A -> M B) : M B :=
  fun w =>
    match m w with
    | (Ok a, w') => k a w'
    | (Exit msg, w') => (Exit msg, w')
    | (Raise e, w') => (Raise e, w')
    end.

Definition sys_exit {A} (msg : string) : M A := fun w => (Exit msg, w).

Definition lift {A} (o : outcome A) : M A := fun w => (o, w).

(** [try: m  except <caught> as e: handler e]; [SystemExit] passes. *)
Definition try_except {A} (m : M A) (caught : exn -> bool) (handler : exn -> M A) : M A :=
  fun w =>
    match m w with
    | (Raise e, w') => if caught e then handler e w' else (Raise e, w')
    | r => r
    end.

Notation "'let!' x ':=' m 'in' k" := (bind m (fun x => k))
  (at level 10, x pattern, m at level 100, k at level 200).

Definition get_cwd : M path := fun w => (Ok (cwd w), w).

(** [p.exists()] *)
Definition path_exists (p : path) : M bool :=
  fun w => (Ok (bool_decide (is_Some (fs w !! p))), w).

(** [p.exists() and p.is_dir()] *)
Definition is_dir (files : gmap path node) (p : path) : bool :=
  match files !! p with Some Dir => true | _ => false end.

Definition set_node (p : path) (n : node) : M unit :=
  fun w => (Ok tt, mk_world (cwd w) (<[p := n]> (fs w))).

(** [p.mkdir(exist_ok=True)] *)
Definition mkdir_exist_ok (p : path) : M unit :=
  fun w =>
    match fs w !! p with
    | None => set_node p Dir w
    | Some Dir => (Ok tt, w)
    | Some _ => (Raise (FileExistsError p), w)
    end.

(** [p.read_text(encoding='utf-8')] *)
Definition read_text `{Platform} (p : path) : M string :=
  fun w =>
    match fs w !! p with
    | None => (Raise (FileNotFoundError p), w)
    | Some Dir => (Raise (IsADirectoryError p), w)
    | Some (File text) => (Ok text, w)
    | Some (DbFile db) =>
        match db_text db with
        | Some text => (Ok text, w)
        | None => (Raise UnicodeDecodeError, w)
        end
    end.

(** [p.write_text(text, encoding='utf-8')] *)
Definition write_text (p : path) (text : string) : M unit :=
  fun w =>
    match fs w !! p with
    | Some Dir => (Raise (IsADirectoryError p), w)
    | _ => set_node p (File text) w
    end.

(** ** Repository locator *)

Definition not_a_repository : string :=
  "ERROR: .git directory not found. Not in a git repository.".

(** The loop of [find_repo_root]: it runs while [current != current.parent],
    which fails only at the filesystem root. *)
Fixpoint find_repo_root_from (files : gmap path node) (current : path) : outcome path :=
  match current with
  | [] => Exit not_a_repository
  | _ :: up =>
      if is_dir files (current // ".git") then Ok current
      else find_repo_root_from files up
  end.

Definition find_repo_root (start_path : path) : M path :=
  fun w => (find_repo_root_from (fs w) start_path, w).

Definition get_intent_dir : M path :=
  let! here := get_cwd in
  let! repo_root := find_repo_root here in
  ret (repo_root // ".intent").

(** ** SQLite *)

(** [sqlite3.connect(str(p))] followed by the first statement: an existing
    database file is opened, an empty file is an empty database, a file
    that does not exist starts as an empty database (it is written by
    [sqlite_commit]), any other file is not a database and a directory
    cannot be opened. *)
Definition sqlite_connect (p : path) : M database :=
  fun w =>
    match fs w !! p with
    | None => (Ok empty_database, w)
    | Some (DbFile db) => (Ok db, w)
    | Some (File EmptyString) => (Ok empty_database, w)
    | Some (File _) => (Raise (DatabaseError "file is not a database"), w)
    | Some Dir => (Raise (OperationalError "unable to open database file"), w)
    end.

(** [conn.commit(); conn.close()] after statements that left [db]. *)
Definition sqlite_commit (p : path) (db : database) : M unit :=
  set_node p (DbFile db).

(** Two table names are the same to SQLite when they differ only in the
    case of ASCII letters. *)
Definition same_name (a b : string) : bool :=
  String.eqb (upper_text a) (upper_text b).

(** The database has a table that the name [name] in a statement refers
    to. *)
Definition has_table (name : string) (db : database) : Prop :=
  set_Exists (fun t => same_name t name = true) (db_tables db).

#[global] Instance has_table_dec name db : Decision (has_table name db).
Proof. unfold has_table. apply _. Defined.

(** [CREATE TABLE IF NOT EXISTS name (...)] *)
Definition create_table_if_not_exists (name : string) (db : database) : database :=
  if decide (has_table name db) then db
  else mk_database ({[name]} ∪ db_tables db)
         (if same_name name "intents" then [] else db_intents db).

(** [SELECT name FROM sqlite_master WHERE type='table' AND name IN names];
    the names are compared as stored, byte by byte. *)
Definition select_table_names_in (names : gset string) (db : database) : gset string :=
  filter (fun name => name ∈ names) (db_tables db).

Definition no_such_table : exn := OperationalError "no such table: intents".

Definition unique_failed : exn := IntegrityError "UNIQUE constraint failed: intents.id".

(** [INSERT INTO intents (...) VALUES (...)]; [id] is the primary key. *)
Definition insert_intent (row : intent) (db : database) : outcome database :=
  if decide (has_table "intents" db) then
    if existsb (fun r => String.eqb (id r) (id row)) (db_intents db)
    then Raise unique_failed
    else Ok (mk_database (db_tables db) (db_intents db ++ [row]))
  else Raise no_such_table.

(** ** Schema manager *)

Definition required_tables : gset string :=
  {[ "intents"; "assumptions"; "decisions" ]}.

Definition create_database_schema (db_path : path) : M unit :=
  let! db := sqlite_connect db_path in
  let db := create_table_if_not_exists "intents" db in
  let db := create_table_if_not_exists "assumptions" db in
  let db := create_table_if_not_exists "decisions" db in
  sqlite_commit db_path db.

(** The message of a schema mismatch, for the names of the two sets in
    the order in which the sets are iterated. *)
Definition schema_mismatch_msg (missing extra : list string) : string :=
  "ERROR: Database schema mismatch detected." +:+ nl
  +:+ (match missing with
       | [] => ""
       | _ :: _ => "  Missing tables: " +:+ join ", " missing +:+ nl
       end)
  +:+ (match extra with
       | [] => ""
       | _ :: _ => "  Unexpected tables: " +:+ join ", " extra +:+ nl
       end)
  +:+ nl
  +:+ "This indicates a schema version conflict." +:+ nl
  +:+ "Do not attempt automatic migration." +:+ nl
  +:+ "Manual intervention required." +:+ nl
  +:+ nl
  +:+ "If you need to reset, backup your data and delete intent.db".

(** ** Metadata store *)

Definition required_fields : list string :=
  ["repo_path"; "created_at"; "schema_version"].

Definition meta_data (repo_root : path) (now : string) : json :=
  JObj [("repo_path", JStr (path_str repo_root));
        ("created_at", JStr now);
        ("schema_version", JStr "0.1")].

Section with_platform.
Context `{Platform}.

Definition ensure_database_schema (db_path : path) : M unit :=
  let! present := path_exists db_path in
  if negb present then create_database_schema db_path
  else
    let! db := sqlite_connect db_path in
    let existing_tables := select_table_names_in required_tables db in
    if decide (existing_tables ≠ required_tables) then
      let missing := required_tables ∖ existing_tables in
      let extra := existing_tables ∖ required_tables in
      sys_exit (schema_mismatch_msg (set_order missing) (set_order extra))
    else ret tt.

(** The first half of [ensure_meta_json]: whether the descriptor has to be
    written. *)
Definition meta_needs_init (meta_json : path) : M bool :=
  let! present := path_exists meta_json in
  if negb present then ret true
  else
    try_except
      (let! text := read_text meta_json in
       let content := strip text in
       if String.eqb content "" then ret true
       else
         let! data := lift (match json_loads content with
                            | Some data => Ok data
                            | None => Raise JSONDecodeError
                            end) in
         let! has_all := lift (all_in required_fields data) in
         ret (negb has_all))
      (fun e => is_JSONDecodeError e || is_OSError e)
      (fun _ => ret true).

(** [now] is [datetime.now().isoformat()]. *)
Definition ensure_meta_json (now : string) (intent_dir repo_root : path) : M unit :=
  let meta_json := intent_dir // "meta.json" in
  let! needs_init := meta_needs_init meta_json in
  if needs_init then
    try_except
      (write_text meta_json (json_dumps (meta_data repo_root now)))
      is_OSError
      (fun e => sys_exit ("ERROR: Failed to create meta.json: " +:+ str_exn e))
  else ret tt.

(** ** Initialisation *)

Definition init_intent_structure (now : string) : M path :=
  let! here := get_cwd in
  let! repo_root := find_repo_root here in
  let intent_dir := repo_root // ".intent" in
  let! _ :=
    try_except (mkdir_exist_ok intent_dir) is_OSError
      (fun e => sys_exit ("ERROR: Failed to create .intent directory: " +:+ str_exn e)) in
  let intent_db := intent_dir // "intent.db" in
  let! _ :=
    try_except (ensure_database_schema intent_db)
      (fun e => is_OSError e || is_sqlite3_Error e)
      (fun e => sys_exit ("ERROR: Failed to create intent.db: " +:+ str_exn e)) in
  let! _ := ensure_meta_json now intent_dir repo_root in
  ret intent_dir.

Definition cmd_init (now : string) : M path := init_intent_structure now.

End with_platform.

(** ** Standard input *)

(** [input()] on the lines still to be read. *)
Definition input (stdin : list string) : outcome (string * list string) :=
  match stdin with
  | [] => Raise EOFError
  | line :: rest => Ok (line, rest)
  end.

(** The loop of [read_multiline]: the third blank line in a row ends it
    and is not kept. *)
Fixpoint read_lines (stdin lines : list string) (empty_count : nat)
  : outcome (list string * list string) :=
  match stdin with
  | [] => Raise EOFError
  | line :: rest =>
      if String.eqb line "" then
        if Nat.leb 3 (S empty_count) then Ok (lines, rest)
        else read_lines rest (lines ++ [line]) (S empty_count)
      else read_lines rest (lines ++ [line]) 0
  end.

(** [if lines and lines[-1] == "": lines.pop()] *)
Definition pop_blank (lines : list string) : list string :=
  match last lines with
  | Some line => if String.eqb line "" then removelast lines else lines
  | None => lines
  end.

Definition read_multiline (stdin : list string) : outcome (string * list string) :=
  match read_lines stdin [] 0 with
  | Ok (lines, rest) => Ok (join nl (pop_blank (pop_blank (pop_blank lines))), rest)
  | Exit msg => Exit msg
  | Raise e => Raise e
  end.

(** ** Record store *)

Definition not_initialized : string :=
  "ERROR: .intent/ not initialized. Run 'axiom init' first.".

(** [intent_id] is [str(uuid.uuid4())], [now] is
    [datetime.now().isoformat()], [stdin] the lines typed.  The command
    returns the id it prints. *)
Definition cmd_new (intent_id now : string) (stdin : list string) : M string :=
  let! intent_dir := get_intent_dir in
  let intent_db := intent_dir // "intent.db" in
  let! present := path_exists intent_db in
  if negb present then sys_exit not_initialized
  else
    let! (line, stdin) := lift (input stdin) in
    let title := strip line in
    if String.eqb title "" then sys_exit "ERROR: Title is required."
    else
      let! (problem, stdin) := lift (read_multiline stdin) in
      let! (context, stdin) := lift (read_multiline stdin) in
      let! (constraints, stdin) := lift (read_multiline stdin) in
      let! db := sqlite_connect intent_db in
      let! db := lift (insert_intent
                         (mk_intent intent_id title problem context constraints
                                    "draft" now now) db) in
      let! _ := sqlite_commit intent_db db in
      ret intent_id.

(** [ORDER BY created_at DESC]: a row comes before the rows whose
    [created_at] is not greater, texts compared byte by byte. *)
Definition created_desc : relation intent :=
  fun a b => String.le (created_at b) (created_at a).

#[global] Instance created_desc_dec : RelDecision created_desc.
Proof. intros a b. unfold created_desc. apply _. Defined.

(** The columns [cmd_list] selects: id, title, status, created_at. *)
Definition list_columns (r : intent) : string * string * string * string :=
  (id r, title r, status r, created_at r).

(** [SELECT id, title, status, created_at FROM intents ORDER BY created_at DESC] *)
Definition select_list (db : database) : outcome (list (string * string * string * string)) :=
  if decide (has_table "intents" db)
  then Ok (list_columns <$> merge_sort created_desc (db_intents db))
  else Raise no_such_table.

(** The command returns the rows it prints. *)
Definition cmd_list : M (list (string * string * string * string)) :=
  let! intent_dir := get_intent_dir in
  let intent_db := intent_dir // "intent.db" in
  let! present := path_exists intent_db in
  if negb present then sys_exit not_initialized
  else
    let! db := sqlite_connect intent_db in
    lift (select_list db).

(** ** Identifier resolver *)

(** [s LIKE pattern] with SQLite's defaults: [%] stands for any run of
    characters, [_] for any one character (with the bytes that continue
    it), no escape character, and the other characters match without
    regard to the case of ASCII letters. *)
Fixpoint like (pattern s : string) : bool :=
  match pattern with
  | EmptyString =>
      match s with EmptyString => true | String _ _ => false end
  | String c pattern' =>
      if Ascii.eqb c "%" then
        (fix any_run (s : string) : bool :=
           like pattern' s ||
           match s with
           | String _ s' => any_run s'
           | EmptyString => false
           end) s
      else
        match s with
        | String d s' =>
            if Ascii.eqb c "_" then like pattern' (skip_continuation s')
            else Ascii.eqb (to_upper c) (to_upper d) && like pattern' s'
        | EmptyString => false
        end
  end.

(** [SELECT id FROM intents WHERE id LIKE pattern].  The query has no
    [ORDER BY]; SQLite answers it from the index of the primary key, so
    the ids come in ascending order, compared byte by byte. *)
Definition select_ids_like (pattern : string) (db : database) : outcome (list string) :=
  if decide (has_table "intents" db)
  then Ok (merge_sort String.le
             (filter (fun i => like pattern i = true) (id <$> db_intents db)))
  else Raise no_such_table.

Definition no_match_msg (prefix : string) : string :=
  "ERROR: No intent found matching prefix '" +:+ prefix +:+ "'.".

Definition ambiguous_msg (prefix : string) (matches : list string) : string :=
  "ERROR: Ambiguous prefix '" +:+ prefix +:+ "' matches "
  +:+ str_nat (length matches) +:+ " intents:" +:+ nl +:+ "  "
  +:+ join (nl +:+ "  ") matches.

Definition find_intent_by_prefix (intent_db : path) (prefix : string) : M string :=
  let! db := sqlite_connect intent_db in
  let! matches := lift (select_ids_like (prefix +:+ "%") db) in
  match matches with
  | [] => sys_exit (no_match_msg prefix)
  | [full] => ret full
  | _ :: _ :: _ => sys_exit (ambiguous_msg prefix matches)
  end.

(** [SELECT ... FROM intents WHERE id = ?] and [fetchone()] *)
Definition select_by_id (intent_id : string) (db : database) : outcome (option intent) :=
  if decide (has_table "intents" db)
  then Ok (find (fun r => String.eqb (id r) intent_id) (db_intents db))
  else Raise no_such_table.

Definition not_found_msg (intent_id : string) : string :=
  "ERROR: Intent '" +:+ intent_id +:+ "' not found.".

(** The command returns the row it prints. *)
Definition cmd_show (intent_id : string) : M intent :=
  let! intent_dir := get_intent_dir in
  let intent_db := intent_dir // "intent.db" in
  let! present := path_exists intent_db in
  if negb present then sys_exit not_initialized
  else
    let! intent_id :=
      (if Nat.leb 6 (str_len intent_id) && Nat.ltb (str_len intent_id) 36
       then find_intent_by_prefix intent_db intent_id
       else ret intent_id) in
    let! db := sqlite_connect intent_db in
    let! row := lift (select_by_id intent_id db) in
    match row with
    | None => sys_exit (not_found_msg intent_id)
    | Some intent => ret intent
    end.

(** * Vocabulary of the statements *)

(** The repository that contains the working directory of [w]. *)
Definition in_repo (w : world) (repo_root : path) : Prop :=
  find_repo_root_from (fs w) (cwd w) = Ok repo_root.

Definition intent_db_of (repo_root : path) : path :=
  repo_root // ".intent" // "intent.db".

Definition meta_json_of (repo_root : path) : path :=
  repo_root // ".intent" // "meta.json".

(** The lines of a text that [read_multiline] reads back as typed, when
    [blanks] blank lines were read just before: the text has no three
    blank lines in a row and does not end with a blank line. *)
Fixpoint typed_ok (lines : list string) (blanks : nat) : bool :=
  match lines with
  | [] => Nat.eqb blanks 0
  | line :: rest =>
      if String.eqb line "" then Nat.ltb (S blanks) 3 && typed_ok rest (S blanks)
      else typed_ok rest 0
  end.

(** The ids the query of [find_intent_by_prefix] selects. *)
Definition matches_of (prefix : string) (db : database) : list string :=
  merge_sort String.le
    (filter (fun i => like (prefix +:+ "%") i = true) (id <$> db_intents db)).

(** The stored ids that begin with the candidate, character for
    character. *)
Definition literal_matches (candidate : string) (db : database) : list string :=
  filter (fun i => String.prefix candidate i = true) (id <$> db_intents db).

(** No character of the text is a wildcard of [LIKE]. *)
Fixpoint no_wildcard (s : string) : bool :=
  match s with
  | EmptyString => true
  | String c s' => negb (Ascii.eqb c "%") && negb (Ascii.eqb c "_") && no_wildcard s'
  end.

(** No character of the text is an upper-case ASCII letter. *)
Fixpoint no_upper (s : string) : bool :=
  match s with
  | EmptyString => true
  | String c s' => negb (byte_in 65 90 c) && no_upper s'
  end.

(** The [created_at] column of a listed row. *)
Definition listed_at (row : string * string * string * string) : string := snd row.

Definition listed_desc : relation (string * string * string * string) :=
  fun a b => String.le (listed_at b) (listed_at a).

(** What [sqlite_connect] gives for the node found at the path. *)
Definition open_node (n : node) : outcome database :=
  match n with
  | DbFile db => Ok db
  | File EmptyString => Ok empty_database
  | File _ => Raise (DatabaseError "file is not a database")
  | Dir => Raise (OperationalError "unable to open database file")
  end.

Definition and_then {A B} (o : outcome A) (k : A -> outcome B) : outcome B :=
  match o with
  | Ok a => k a
  | Exit msg => Exit msg
  | Raise e => Raise e
  end.

(** The outcome of each record command, from the node at [intent.db]
    alone. *)
Definition list_outcome (n : node) : outcome (list (string * string * string * string)) :=
  and_then (open_node n) select_list.

Definition resolve_outcome (candidate : string) (db : database) : outcome string :=
  and_then (select_ids_like (candidate +:+ "%") db) (fun matches =>
    match matches with
    | [] => Exit (no_match_msg candidate)
    | [full] => Ok full
    | _ :: _ :: _ => Exit (ambiguous_msg candidate matches)
    end).

Definition fetch_outcome (intent_id : string) (db : database) : outcome intent :=
  and_then (select_by_id intent_id db) (fun row =>
    match row with
    | None => Exit (not_found_msg intent_id)
    | Some r => Ok r
    end).

Definition show_outcome (candidate : string) (n : node) : outcome intent :=
  and_then (open_node n) (fun db =>
    and_then
      (if Nat.leb 6 (str_len candidate) && Nat.ltb (str_len candidate) 36
       then resolve_outcome candidate db else Ok candidate)
      (fun full => fetch_outcome full db)).

Definition new_outcome (intent_id now : string) (stdin : list string) (n : node)
  : outcome string :=
  and_then (input stdin) (fun '(line, stdin) =>
    if String.eqb (strip line) "" then Exit "ERROR: Title is required."
    else
      and_then (read_multiline stdin) (fun '(problem, stdin) =>
      and_then (read_multiline stdin) (fun '(context, stdin) =>
      and_then (read_multiline stdin) (fun '(constraints, stdin) =>
      and_then (open_node n) (fun db =>
      and_then (insert_intent (mk_intent intent_id (strip line) problem context
                                         constraints "draft" now now) db)
        (fun _ => Ok intent_id)))))).

Section meta_vocabulary.
Context `{Platform}.

(** The world after the descriptor is written. *)
Definition with_fresh_meta (now : string) (repo_root : path) (w : world) : world :=
  mk_world (cwd w)
    (<[ meta_json_of repo_root := File (json_dumps (meta_data repo_root now)) ]> (fs w)).

(** The descriptor at [p] can be read and decodes to a value in which the
    three fields are found. *)
Definition descriptor_valid (w : world) (p : path) : Prop :=
  exists text data,
    is_Some (fs w !! p) /\
    read_text p w = (Ok text, w) /\
    strip text ≠ "" /\
    json_loads (strip text) = Some data /\
    all_in required_fields data = Ok true.

(** [json.loads] reads back, with its three fields, the descriptor
    [json.dumps] writes for [repo_root] at the time [now]. *)
Definition dumps_loads_back (repo_root : path) (now : string) : Prop :=
  strip (json_dumps (meta_data repo_root now)) ≠ "" /\
  exists data,
    json_loads (strip (json_dumps (meta_data repo_root now))) = Some data /\
    all_in required_fields data = Ok true.

End meta_vocabulary.

(** * Sample data *)

Definition drifted_database : database :=
  mk_database ({["notes"]} ∪ required_tables) [].

Definition drifted_world : world :=
  mk_world ["proj"]
    (<[ intent_db_of ["proj"] := DbFile drifted_database ]>
       (<[ ["proj"] // ".intent" := Dir ]> (<[ ["proj"] // ".git" := Dir ]> ∅))).

Definition root_repo_files : gmap path node := <[ [] // ".git" := Dir ]> ∅.

Definition sample_id : string := "3f2a9c1e-7b4d-4e8a-9c2f-1a2b3c4d5e6f".

Definition sample_intent : intent :=
  mk_intent sample_id "Add retry logic" "Calls fail" "" "" "draft"
    "2024-05-01T10:00:00" "2024-05-01T10:00:00".

Definition sample_world : world :=
  mk_world ["proj"]
    (<[ intent_db_of ["proj"] := DbFile (mk_database required_tables [sample_intent]) ]>
       (<[ ["proj"] // ".intent" := Dir ]> (<[ ["proj"] // ".git" := Dir ]> ∅))).

Definition fresh_id : string := "9b1deb4d-3b7d-4bad-9bdd-2b0d7b3dcb6d".

Definition typed_lines : list string :=
  ["  Add rate limiting "; "Too many calls"; ""; "per client"; ""; ""; "";
   "gateway"; ""; ""; ""; ""; ""; ""].

(** A platform for the examples: it writes an object of strings the way
    [json.dumps(_, indent=2)] does when nothing needs escaping, and reads
    back the two texts the examples use. *)
Definition sample_member (kv : string * json) : string :=
  dquote +:+ fst kv +:+ dquote +:+ ": " +:+
  match snd kv with
  | JStr s => dquote +:+ s +:+ dquote
  | _ => "null"
  end.

Definition sample_dumps (v : json) : string :=
  match v with
  | JObj members =>
      "{" +:+ nl +:+ "  " +:+ join ("," +:+ nl +:+ "  ") (sample_member <$> members)
      +:+ nl +:+ "}"
  | JStr s => dquote +:+ s +:+ dquote
  | _ => "null"
  end.

Definition sample_meta : json := meta_data ["proj"] "2024-05-01T09:00:00".

Definition sample_loads (text : string) : option json :=
  if String.eqb text "null" then Some JNull
  else if String.eqb text (sample_dumps sample_meta) then Some sample_meta
  else None.

Definition sample_str_exn (e : exn) : string :=
  match e with
  | FileExistsError p => "File exists: " +:+ path_str p
  | FileNotFoundError p => "No such file or directory: " +:+ path_str p
  | IsADirectoryError p => "Is a directory: " +:+ path_str p
  | OperationalError msg | DatabaseError msg | IntegrityError msg => msg
  | JSONDecodeError => "Expecting value"
  | UnicodeDecodeError => "invalid start byte"
  | TypeError => "argument is not iterable"
  | EOFError => "EOF when reading a line"
  end.

Definition sample_platform : Platform :=
  {| json_loads := sample_loads;
     json_dumps := sample_dumps;
     str_exn := sample_str_exn;
     set_order := elements;
     set_order_elements := fun names => reflexivity (elements names);
     db_text := fun _ => None |}.

(** A repository [/proj] before [axiom init], and after it. *)
Definition bare_world : world :=
  mk_world ["src"; "proj"] (<[ ["proj"] // ".git" := Dir ]> ∅).

Definition initialised_world : world :=
  snd (@init_intent_structure sample_platform "2024-05-01T09:00:00" bare_world).

(** A world whose descriptor holds the text [null]. *)
Definition null_meta_world : world :=
  mk_world ["proj"]
    (<[ meta_json_of ["proj"] := File "null" ]>
       (<[ ["proj"] // ".intent" := Dir ]> (<[ ["proj"] // ".git" := Dir ]> ∅))).

(** Two intents whose ids begin alike, the second created a day later. *)
Definition second_id : string := "3f2a9c1e-1111-4222-8333-444455556666".

Definition second_intent : intent :=
  mk_intent second_id "Add rate limiting" "Too many calls" "" "" "draft"
    "2024-05-02T10:00:00" "2024-05-02T10:00:00".

Definition two_database : database :=
  mk_database required_tables [sample_intent; second_intent].

Definition two_world : world :=
  mk_world ["proj"]
    (<[ intent_db_of ["proj"] := DbFile two_database ]>
       (<[ ["proj"] // ".intent" := Dir ]> (<[ ["proj"] // ".git" := Dir ]> ∅))).


(** * Properties *)

(** ** Running a command *)

Lemma get_intent_dir_run w repo_root :
  in_repo w repo_root -> get_intent_dir w = (Ok (repo_root // ".intent"), w).
Proof.
  unfold in_repo, get_intent_dir, bind, get_cwd, find_repo_root, ret.
  intros ->. reflexivity.
Qed.

Lemma path_exists_Some w p n :
  fs w !! p = Some n -> path_exists p w = (Ok true, w).
Proof.
  intros Hp. unfold path_exists. rewrite bool_decide_eq_true_2; eauto.
Qed.

Lemma path_exists_None w p :
  fs w !! p = None -> path_exists p w = (Ok false, w).
Proof.
  intros Hp. unfold path_exists. rewrite bool_decide_eq_false_2; [done|].
  rewrite Hp. by intros [? ?].
Qed.

(** ** Tables *)

Lemma same_name_refl name : same_name name name = true.
Proof. unfold same_name. apply String.eqb_refl. Qed.

(** A table stored under the very name is found. *)
Lemma has_table_elem name db : name ∈ db_tables db -> has_table name db.
Proof. intros Hin. exists name. split; [done|apply same_name_refl]. Qed.

(** ** Schema manager *)

Section schema_facts.
Context `{Platform}.

Lemma set_order_empty : set_order ∅ = [].
Proof.
  apply Permutation_nil_r. rewrite set_order_elements. by rewrite elements_empty.
Qed.

(** The query keeps only required names, so nothing it returns is ever
    unexpected. *)
Lemma existing_tables_subseteq db :
  select_table_names_in required_tables db ⊆ required_tables.
Proof.
  unfold select_table_names_in. intros name Hname.
  apply elem_of_filter in Hname. tauto.
Qed.

Lemma extra_tables_empty db :
  select_table_names_in required_tables db ∖ required_tables = ∅.
Proof. pose proof (existing_tables_subseteq db). set_solver. Qed.

Lemma existing_tables_all db :
  required_tables ⊆ db_tables db ->
  select_table_names_in required_tables db = required_tables.
Proof.
  unfold select_table_names_in. intros Hsub. apply set_eq. intros name.
  rewrite elem_of_filter. split; [tauto|]. intros Hname. split; [done|]. by apply Hsub.
Qed.

(** An existing database that has the three required tables passes the
    check, whatever other tables it has. *)
Lemma ensure_database_schema_superset w db_path db :
  fs w !! db_path = Some (DbFile db) ->
  required_tables ⊆ db_tables db ->
  ensure_database_schema db_path w = (Ok tt, w).
Proof.
  intros Hdb Hsub. unfold ensure_database_schema, bind.
  rewrite (path_exists_Some _ _ _ Hdb). simpl.
  unfold sqlite_connect. rewrite Hdb.
  rewrite (existing_tables_all _ Hsub).
  destruct (decide (required_tables ≠ required_tables)); [done|reflexivity].
Qed.

(** Declaring the tables again in a database that has them changes
    nothing. *)
Lemma create_database_schema_existing w db_path db :
  fs w !! db_path = Some (DbFile db) ->
  required_tables ⊆ db_tables db ->
  create_database_schema db_path w = (Ok tt, w).
Proof.
  intros Hdb Hsub. unfold create_database_schema, bind, sqlite_connect. rewrite Hdb.
  assert (Hkeep : forall name, name ∈ required_tables ->
            create_table_if_not_exists name db = db).
  { intros name Hname. unfold create_table_if_not_exists.
    rewrite decide_True; [done|by apply has_table_elem, Hsub]. }
  rewrite (Hkeep "intents"), (Hkeep "assumptions"), (Hkeep "decisions");
    [|unfold required_tables; set_solver..].
  unfold sqlite_commit, set_node. rewrite insert_id by done. by destruct w.
Qed.

(** An existing database that lacks a required table is refused, and the
    message is the one that lists the missing tables. *)
Lemma ensure_database_schema_missing w db_path db :
  fs w !! db_path = Some (DbFile db) ->
  required_tables ⊈ db_tables db ->
  ensure_database_schema db_path w =
    (Exit (schema_mismatch_msg
             (set_order (required_tables ∖ select_table_names_in required_tables db)) []),
     w).
Proof.
  intros Hdb Hsub. unfold ensure_database_schema, bind.
  rewrite (path_exists_Some _ _ _ Hdb). simpl.
  unfold sqlite_connect. rewrite Hdb.
  destruct (decide (select_table_names_in required_tables db ≠ required_tables)) as [_|Heq].
  - rewrite extra_tables_empty, set_order_empty. reflexivity.
  - exfalso. apply Hsub. apply dec_stable in Heq.
    intros x Hx. rewrite <- Heq in Hx. unfold select_table_names_in in Hx.
    apply elem_of_filter in Hx. tauto.
Qed.

(** C1, at the failing input: a database with the three required tables
    and the unexpected table [notes] differs from the required set, yet
    [ensure_database_schema] returns normally and changes nothing: no
    error names [notes]. *)
Theorem ensure_database_schema_accepts_unexpected_table :
  db_tables drifted_database ≠ required_tables /\
  ensure_database_schema (intent_db_of ["proj"]) drifted_world = (Ok tt, drifted_world).
Proof.
  split.
  - intros Heq. assert (Hin : "notes" ∈ db_tables drifted_database) by (simpl; set_solver).
    rewrite Heq in Hin. unfold required_tables in Hin. set_solver.
  - apply (ensure_database_schema_superset _ _ drifted_database).
    + reflexivity.
    + simpl. set_solver.
Qed.

End schema_facts.

(** ** Repository locator *)

(** The recursion is the loop of the source: it stops where the path is
    its own parent, tests the marker, and moves to the parent. *)
Lemma find_repo_root_from_loop files current :
  find_repo_root_from files current =
    if decide (current = parent current) then Exit not_a_repository
    else if is_dir files (current // ".git") then Ok current
    else find_repo_root_from files (parent current).
Proof.
  destruct current as [|name up]; simpl; [done|].
  rewrite decide_False; [done|].
  intros Heq. apply (f_equal length) in Heq. simpl in Heq. lia.
Qed.

(** The directories [find_repo_root] examines are the start and its
    ancestors below the filesystem root; the one it returns holds the
    marker, and (next lemma) no examined directory nearer to the start
    does. *)
Lemma find_repo_root_from_Ok files start repo_root :
  find_repo_root_from files start = Ok repo_root ->
  repo_root ≠ [] /\ repo_root `suffix_of` start /\
  is_dir files (repo_root // ".git") = true.
Proof.
  induction start as [|name up IH]; simpl; [done|].
  destruct (is_dir files ((name :: up) // ".git")) eqn:Hmark.
  - intros [= <-]. done.
  - intros Hup. destruct (IH Hup) as (Hne & Hsuf & Hdir).
    split_and!; [done| by apply suffix_cons_r |done].
Qed.

Lemma find_repo_root_from_nearest files start repo_root :
  find_repo_root_from files start = Ok repo_root ->
  forall p, p `suffix_of` start -> length repo_root < length p ->
            is_dir files (p // ".git") = false.
Proof.
  induction start as [|name up IH]; simpl; [done|].
  destruct (is_dir files ((name :: up) // ".git")) eqn:Hmark.
  - intros [= <-] p Hsuf Hlen. apply suffix_length in Hsuf. simpl in *. lia.
  - intros Hup p Hsuf Hlen. destruct p as [|x p']; [simpl in Hlen; lia|].
    apply suffix_cons_inv in Hsuf as [[= -> ->]|Hsuf]; [done|].
    by apply IH.
Qed.

(** The marker at the filesystem root is never looked at. *)
Lemma find_repo_root_from_below_root files start :
  (forall p, p ≠ [] -> p `suffix_of` start -> is_dir files (p // ".git") = false) ->
  find_repo_root_from files start = Exit not_a_repository.
Proof.
  induction start as [|name up IH]; intros Hnone; simpl; [done|].
  rewrite (Hnone (name :: up)); [|done|done].
  apply IH. intros p Hp Hsuf. apply Hnone; [done|]. by apply suffix_cons_r.
Qed.

(** C2, at the failing input: with the marker directory at the filesystem
    root, the locator started at the root, or at a directory below it,
    exits with the "not a repository" error. *)
Theorem find_repo_root_misses_marker_at_root :
  is_dir root_repo_files ([] // ".git") = true /\
  find_repo_root [] (mk_world [] root_repo_files)
    = (Exit not_a_repository, mk_world [] root_repo_files) /\
  find_repo_root ["src"; "proj"] (mk_world [] root_repo_files)
    = (Exit not_a_repository, mk_world [] root_repo_files).
Proof. split_and!; reflexivity. Qed.

(** ** Texts *)

Lemma append_nil_l (b : string) : "" +:+ b = b.
Proof. reflexivity. Qed.

Lemma append_cons c (a b : string) : String c a +:+ b = String c (a +:+ b).
Proof. reflexivity. Qed.

Lemma append_nil_r (a : string) : a +:+ "" = a.
Proof. induction a as [|x a IH]; [done|]. by rewrite append_cons, IH. Qed.

Lemma append_assoc (a b c : string) : (a +:+ b) +:+ c = a +:+ b +:+ c.
Proof. induction a as [|x a IH]; [done|]. by rewrite !append_cons, IH. Qed.

Lemma prefix_append (x b : string) : String.prefix x (x +:+ b) = true.
Proof.
  induction x as [|c x IH]; [by destruct b|]. rewrite append_cons. simpl.
  destruct (ascii_dec c c); [done|congruence].
Qed.

Lemma is_substring_unfold (needle hay : string) :
  is_substring needle hay =
    String.prefix needle hay ||
    match hay with
    | String _ hay' => is_substring needle hay'
    | EmptyString => false
    end.
Proof. by destruct hay. Qed.

Lemma is_substring_append (a x b : string) :
  is_substring x (a +:+ x +:+ b) = true.
Proof.
  induction a as [|c a IH].
  - rewrite append_nil_l, is_substring_unfold, prefix_append. done.
  - rewrite append_cons. simpl. rewrite IH. apply orb_true_r.
Qed.

Lemma is_substring_append_r (a x : string) : is_substring x (a +:+ x) = true.
Proof.
  rewrite <- (append_nil_r x) at 2. apply is_substring_append.
Qed.

Lemma is_hex_one_byte c : is_hex c = true -> byte_in 128 191 c = false.
Proof.
  unfold is_hex, byte_in. intros Hhex. apply andb_false_iff.
  rewrite !Nat.leb_gt.
  apply orb_true_iff in Hhex as [Hd|Hl]; apply andb_true_iff in Hd || apply andb_true_iff in Hl;
    [destruct Hd as [_ ?%Nat.leb_le]|destruct Hl as [_ ?%Nat.leb_le]]; left; lia.
Qed.

Lemma hex_run_length n : forall s rest,
  hex_run n s = Some rest -> str_len s = n + str_len rest.
Proof.
  induction n as [|n IH]; intros s rest; simpl.
  - by intros [= ->].
  - destruct s as [|c s]; [done|]. destruct (is_hex c) eqn:Hhex; [|done].
    intros Hrun. simpl. by rewrite (is_hex_one_byte _ Hhex), (IH _ _ Hrun).
Qed.

Lemma hyphen_then_true k o :
  hyphen_then k o = true ->
  exists s', o = Some (String "-" s') /\ k s' = true.
Proof.
  destruct o as [[|c s']|]; simpl; [done| |done].
  intros [Hc Hk]%andb_true_iff. apply Ascii.eqb_eq in Hc as ->. eauto.
Qed.

(** The canonical text of a UUID has 36 characters. *)
Lemma uuid_text_length s : uuid_text s = true -> str_len s = 36.
Proof.
  unfold uuid_text. intros Hu.
  apply hyphen_then_true in Hu as (s1 & H1 & Hu).
  apply hyphen_then_true in Hu as (s2 & H2 & Hu).
  apply hyphen_then_true in Hu as (s3 & H3 & Hu).
  apply hyphen_then_true in Hu as (s4 & H4 & Hu).
  destruct (hex_run 12 s4) as [[|? ?]|] eqn:H5; [|done..].
  apply hex_run_length in H1, H2, H3, H4, H5. simpl in *. lia.
Qed.

(** A text has at most as many characters as bytes. *)
Lemma str_len_le s : str_len s <= String.length s.
Proof.
  induction s as [|c s IH]; simpl; [done|]. destruct (byte_in 128 191 c); lia.
Qed.

(** Every text that is joined occurs in the result. *)
Lemma join_occurs sep (l : list string) x :
  In x l -> exists a b, join sep l = a +:+ x +:+ b.
Proof.
  unfold join. induction l as [|y l IH]; [done|].
  intros [->|Hin].
  - destruct l as [|z l].
    + exists "", "". by rewrite append_nil_l, append_nil_r.
    + exists "", (sep +:+ String.concat sep (z :: l)). reflexivity.
  - destruct (IH Hin) as (a & b & Heq). destruct l as [|z l]; [done|].
    exists (y +:+ sep +:+ a), b.
    change (String.concat sep (y :: z :: l))
      with (y +:+ sep +:+ String.concat sep (z :: l)).
    rewrite Heq. by rewrite !append_assoc.
Qed.

(** ** Identifier resolver *)

Lemma find_intent_by_prefix_run w intent_db db prefix :
  fs w !! intent_db = Some (DbFile db) ->
  "intents" ∈ db_tables db ->
  find_intent_by_prefix intent_db prefix w =
    (match matches_of prefix db with
     | [] => Exit (no_match_msg prefix)
     | [full] => Ok full
     | _ :: _ :: _ => Exit (ambiguous_msg prefix (matches_of prefix db))
     end, w).
Proof.
  intros Hdb Htable.
  unfold find_intent_by_prefix, bind, sqlite_connect, lift, select_ids_like.
  rewrite Hdb. rewrite decide_True by (by apply has_table_elem).
  fold (matches_of prefix db).
  by destruct (matches_of prefix db) as [|? [|? ?]].
Qed.

(** C3, at the failing inputs: the candidates [3f2a__], [3f%c1e] and
    [3F2A9C] have a length in [6, 36) and none is a prefix of the stored
    id, character for character; prefix resolution selects the id for
    each of them. *)
Theorem find_intent_by_prefix_selects_non_prefix :
  String.prefix "3f2a__" sample_id = false /\
  find_intent_by_prefix (intent_db_of ["proj"]) "3f2a__" sample_world
    = (Ok sample_id, sample_world) /\
  String.prefix "3f%c1e" sample_id = false /\
  find_intent_by_prefix (intent_db_of ["proj"]) "3f%c1e" sample_world
    = (Ok sample_id, sample_world) /\
  String.prefix "3F2A9C" sample_id = false /\
  find_intent_by_prefix (intent_db_of ["proj"]) "3F2A9C" sample_world
    = (Ok sample_id, sample_world).
Proof.
  split_and!; try reflexivity;
    (rewrite (find_intent_by_prefix_run _ _ (mk_database required_tables [sample_intent]));
     [reflexivity | reflexivity | by vm_compute]).
Qed.

(** The three cases of prefix resolution, for the ids the query selects:
    with none, the command exits with the "no intent found" message, in
    which the prefix occurs; with exactly one, it returns that stored id;
    with two or more, it exits with the "ambiguous" message, in which the
    prefix and every id selected occur. *)
Lemma find_intent_by_prefix_cases w intent_db db prefix :
  fs w !! intent_db = Some (DbFile db) ->
  "intents" ∈ db_tables db ->
  (matches_of prefix db = [] ->
     find_intent_by_prefix intent_db prefix w = (Exit (no_match_msg prefix), w) /\
     is_substring prefix (no_match_msg prefix) = true) /\
  (forall full, matches_of prefix db = [full] ->
     find_intent_by_prefix intent_db prefix w = (Ok full, w) /\
     In full (id <$> db_intents db)) /\
  (2 <= length (matches_of prefix db) ->
     find_intent_by_prefix intent_db prefix w
       = (Exit (ambiguous_msg prefix (matches_of prefix db)), w) /\
     is_substring prefix (ambiguous_msg prefix (matches_of prefix db)) = true /\
     forall full, In full (matches_of prefix db) ->
       is_substring full (ambiguous_msg prefix (matches_of prefix db)) = true).
Proof.
  intros Hdb Htable.
  pose proof (find_intent_by_prefix_run w intent_db db prefix Hdb Htable) as Hrun.
  split_and!.
  - intros Hnone. rewrite Hnone in Hrun. split; [done|].
    unfold no_match_msg. apply is_substring_append.
  - intros full Hone. rewrite Hone in Hrun. split; [done|].
    assert (Hin : full ∈ matches_of prefix db) by (rewrite Hone; set_solver).
    unfold matches_of in Hin. rewrite merge_sort_Permutation in Hin.
    apply list_elem_of_filter in Hin as [_ Hin].
    by apply list_elem_of_In.
  - intros Hmany.
    destruct (matches_of prefix db) as [|m1 [|m2 ms]] eqn:Hms; simpl in Hmany; [lia|lia|].
    split_and!; [done| |].
    + unfold ambiguous_msg. apply is_substring_append.
    + intros full Hin. unfold ambiguous_msg.
      destruct (join_occurs (nl +:+ "  ") (m1 :: m2 :: ms) full Hin) as (a & b & ->).
      rewrite <- !append_assoc. rewrite append_assoc. apply is_substring_append.
Qed.

(** *** [LIKE] on plain texts *)

Lemma like_percent pattern s :
  like (String "%" pattern) s =
    like pattern s ||
    match s with
    | String _ s' => like (String "%" pattern) s'
    | EmptyString => false
    end.
Proof. by destruct s. Qed.

Lemma like_char c pattern s :
  Ascii.eqb c "%" = false ->
  like (String c pattern) s =
    match s with
    | String d s' =>
        if Ascii.eqb c "_" then like pattern (skip_continuation s')
        else Ascii.eqb (to_upper c) (to_upper d) && like pattern s'
    | EmptyString => false
    end.
Proof. intros Hc. simpl. by rewrite Hc. Qed.

Lemma like_percent_all s : like "%" s = true.
Proof.
  induction s as [|c s IH]; [done|]. rewrite like_percent. by rewrite IH, orb_true_r.
Qed.

Lemma nat_of_ascii_lt c : nat_of_ascii c < 256.
Proof. apply nat_ascii_bounded. Qed.

(** Folding the case keeps apart two characters that are not upper-case
    letters. *)
Lemma to_upper_inj c d :
  byte_in 65 90 c = false -> byte_in 65 90 d = false ->
  to_upper c = to_upper d -> c = d.
Proof.
  unfold byte_in, to_upper. intros Hc Hd Heq.
  pose proof (nat_of_ascii_lt c) as Hcb. pose proof (nat_of_ascii_lt d) as Hdb.
  apply andb_false_iff in Hc, Hd. rewrite !Nat.leb_gt in Hc, Hd.
  assert (Hnat : nat_of_ascii c = nat_of_ascii d).
  { apply (f_equal nat_of_ascii) in Heq.
    destruct (Nat.leb 97 (nat_of_ascii c) && Nat.leb (nat_of_ascii c) 122) eqn:Hlc;
      destruct (Nat.leb 97 (nat_of_ascii d) && Nat.leb (nat_of_ascii d) 122) eqn:Hld;
      try (apply andb_true_iff in Hlc as [?%Nat.leb_le ?%Nat.leb_le]);
      try (apply andb_true_iff in Hld as [?%Nat.leb_le ?%Nat.leb_le]);
      try (apply andb_false_iff in Hlc as [?%Nat.leb_gt|?%Nat.leb_gt]);
      try (apply andb_false_iff in Hld as [?%Nat.leb_gt|?%Nat.leb_gt]);
      rewrite ?nat_ascii_embedding in Heq by lia; lia. }
  by rewrite <- (ascii_nat_embedding c), <- (ascii_nat_embedding d), Hnat.
Qed.

(** For a candidate without wildcards, and texts without upper-case
    letters, the pattern of [find_intent_by_prefix] selects exactly the
    texts that begin with the candidate. *)
Lemma like_plain candidate s :
  no_wildcard candidate = true ->
  no_upper candidate = true ->
  no_upper s = true ->
  like (candidate +:+ "%") s = String.prefix candidate s.
Proof.
  revert s. induction candidate as [|c candidate IH]; intros s Hwild Hcand Hs.
  - rewrite append_nil_l, like_percent_all. by destruct s.
  - simpl in Hwild, Hcand.
    apply andb_true_iff in Hwild as [Hc Hwild]. apply andb_true_iff in Hc as [Hpct Hund].
    apply andb_true_iff in Hcand as [Hcu Hcand].
    apply negb_true_iff in Hpct, Hund, Hcu.
    rewrite append_cons, (like_char _ _ _ Hpct), Hund.
    destruct s as [|d s]; [done|].
    simpl in Hs. apply andb_true_iff in Hs as [Hdu Hs]. apply negb_true_iff in Hdu.
    rewrite (IH s Hwild Hcand Hs). simpl.
    destruct (ascii_dec c d) as [->|Hne].
    + by rewrite Ascii.eqb_refl.
    + destruct (Ascii.eqb_spec (to_upper c) (to_upper d)) as [Heq|_]; [|done].
      by apply to_upper_inj in Heq.
Qed.

(** For such a candidate and such stored ids, an id is selected exactly
    when it begins with the candidate, and the resolution has the three
    cases over those ids. *)
Lemma find_intent_by_prefix_plain w intent_db db candidate :
  fs w !! intent_db = Some (DbFile db) ->
  "intents" ∈ db_tables db ->
  no_wildcard candidate = true ->
  no_upper candidate = true ->
  Forall (fun r => no_upper (id r) = true) (db_intents db) ->
  matches_of candidate db = merge_sort String.le (literal_matches candidate db) /\
  find_intent_by_prefix intent_db candidate w =
    (match merge_sort String.le (literal_matches candidate db) with
     | [] => Exit (no_match_msg candidate)
     | [full] => Ok full
     | _ :: _ :: _ =>
         Exit (ambiguous_msg candidate
                 (merge_sort String.le (literal_matches candidate db)))
     end, w).
Proof.
  intros Hdb Htable Hwild Hcand Hids.
  assert (Hsame : matches_of candidate db
                  = merge_sort String.le (literal_matches candidate db)).
  { unfold matches_of, literal_matches. f_equal.
    induction (db_intents db) as [|r rows IH]; [done|].
    apply Forall_cons in Hids as [Hr Hrows]. specialize (IH Hrows).
    rewrite fmap_cons, !filter_cons, IH, (like_plain _ _ Hwild Hcand Hr).
    by repeat case_decide. }
  split; [done|]. rewrite <- Hsame. by apply find_intent_by_prefix_run.
Qed.

(** C6, at the failing inputs.  The stored ids begin with [3f2a9c1e-];
    none begins with [3F2A9C] and none with [3f2a9c1e-_].  With no stored
    id beginning with the candidate, the resolution of [3F2A9C] returns an
    id, and that of [3f2a9c1e-_] exits with the "ambiguous" message that
    lists two ids, where the "no intent found" message is due. *)
Theorem find_intent_by_prefix_resolves_without_literal_match :
  literal_matches "3F2A9C" (mk_database required_tables [sample_intent]) = [] /\
  find_intent_by_prefix (intent_db_of ["proj"]) "3F2A9C" sample_world
    = (Ok sample_id, sample_world) /\
  literal_matches "3f2a9c1e-_" two_database = [] /\
  find_intent_by_prefix (intent_db_of ["proj"]) "3f2a9c1e-_" two_world
    = (Exit (ambiguous_msg "3f2a9c1e-_" [second_id; sample_id]), two_world).
Proof.
  split_and!; by vm_compute.
Qed.

(** ** Standard input *)

Lemma read_lines_typed lines : forall acc blanks rest,
  typed_ok lines blanks = true ->
  read_lines (lines ++ [""; ""; ""] ++ rest) acc blanks
    = Ok (acc ++ lines ++ [""; ""], rest).
Proof.
  induction lines as [|line lines IH]; intros acc blanks rest Hok; simpl in *.
  - apply Nat.eqb_eq in Hok as ->. simpl. by rewrite <- app_assoc.
  - destruct (String.eqb line "") eqn:Hline.
    + apply String.eqb_eq in Hline as ->.
      apply andb_true_iff in Hok as [Hlt Hok]. apply Nat.ltb_lt in Hlt.
      destruct blanks as [|[|?]]; [| |lia]; simpl;
        rewrite (IH _ _ _ Hok), <- app_assoc; reflexivity.
    + rewrite (IH _ _ _ Hok), <- app_assoc. reflexivity.
Qed.

Lemma typed_ok_last lines blanks :
  typed_ok lines blanks = true -> pop_blank lines = lines.
Proof.
  revert blanks. induction lines as [|line lines IH]; intros blanks Hok; [done|].
  simpl in Hok. unfold pop_blank in *.
  destruct lines as [|line' lines].
  - simpl. destruct (String.eqb line "") eqn:Hline; [|done].
    simpl in Hok. by rewrite andb_false_r in Hok.
  - assert (Hrest : typed_ok (line' :: lines) (if String.eqb line "" then S blanks else 0)
                    = true).
    { destruct (String.eqb line ""); [|done]. by apply andb_true_iff in Hok as [_ ?]. }
    specialize (IH _ Hrest).
    change (last (line :: line' :: lines)) with (last (line' :: lines)).
    destruct (last (line' :: lines)) as [l|]; [|done].
    destruct (String.eqb l ""); [|done].
    change (removelast (line :: line' :: lines))
      with (line :: removelast (line' :: lines)).
    by rewrite IH.
Qed.

Lemma pop_blank_snoc lines : pop_blank (lines ++ [""]) = lines.
Proof.
  unfold pop_blank. rewrite last_snoc. simpl. apply removelast_last.
Qed.

(** Every text of [typed_ok] lines, typed and followed by three blank
    lines, is read back as it was typed, joined with newlines. *)
Lemma read_multiline_typed lines rest :
  typed_ok lines 0 = true ->
  read_multiline (lines ++ [""; ""; ""] ++ rest) = Ok (join nl lines, rest).
Proof.
  intros Hok. unfold read_multiline. rewrite (read_lines_typed _ _ _ _ Hok). simpl.
  change (lines ++ [""; ""]) with (lines ++ [""] ++ [""]).
  rewrite app_assoc, pop_blank_snoc, pop_blank_snoc.
  by rewrite (typed_ok_last _ _ Hok).
Qed.

(** ** Record store *)

(** Outside the lengths 6 to 35, [cmd_show] makes no prefix lookup: the
    argument is the id the row is fetched by. *)
Lemma cmd_show_exact w repo_root db candidate :
  in_repo w repo_root ->
  fs w !! intent_db_of repo_root = Some (DbFile db) ->
  "intents" ∈ db_tables db ->
  str_len candidate < 6 \/ 36 <= str_len candidate ->
  cmd_show candidate w =
    (match find (fun r => String.eqb (id r) candidate) (db_intents db) with
     | Some row => Ok row
     | None => Exit (not_found_msg candidate)
     end, w).
Proof.
  intros Hrepo Hdb Htable Hlen. unfold cmd_show, bind.
  rewrite (get_intent_dir_run _ _ Hrepo).
  fold (intent_db_of repo_root). rewrite (path_exists_Some _ _ _ Hdb). cbn [negb].
  assert (Nat.leb 6 (str_len candidate)
          && Nat.ltb (str_len candidate) 36 = false) as ->.
  { apply andb_false_iff. destruct Hlen as [Hlen|Hlen].
    - left. apply Nat.leb_gt. lia.
    - right. apply Nat.ltb_ge. lia. }
  unfold ret, sqlite_connect, lift, select_by_id, sys_exit. rewrite Hdb.
  rewrite decide_True by (by apply has_table_elem).
  by destruct (find _ _).
Qed.

Lemma find_id_None (rows : list intent) (i : string) :
  ~ In i (id <$> rows) -> find (fun r => String.eqb (id r) i) rows = None.
Proof.
  induction rows as [|r rows IH]; simpl; [done|].
  intros Hnot. destruct (String.eqb_spec (id r) i) as [Heq|Hne].
  - exfalso. apply Hnot. by left.
  - apply IH. intros Hin. apply Hnot. by right.
Qed.

Lemma find_id_app_fresh (rows : list intent) (row : intent) :
  ~ In (id row) (id <$> rows) ->
  find (fun r => String.eqb (id r) (id row)) (rows ++ [row]) = Some row.
Proof.
  induction rows as [|r rows IH]; simpl.
  - intros _. by rewrite String.eqb_refl.
  - intros Hnot. destruct (String.eqb_spec (id r) (id row)) as [Heq|Hne].
    + exfalso. apply Hnot. by left.
    + apply IH. intros Hin. apply Hnot. by right.
Qed.

Lemma existsb_id_false (rows : list intent) (i : string) :
  ~ In i (id <$> rows) -> existsb (fun r => String.eqb (id r) i) rows = false.
Proof.
  induction rows as [|r rows IH]; simpl; [done|].
  intros Hnot. destruct (String.eqb_spec (id r) i) as [Heq|Hne].
  - exfalso. apply Hnot. by left.
  - apply IH. intros Hin. apply Hnot. by right.
Qed.

(** C9: a candidate shorter than 6 characters is fetched as an exact id,
    with no prefix lookup; when the stored ids have 36 characters, as the
    ids [cmd_new] stores do, the command exits with the "not found"
    message, in which the candidate occurs, whether or not the candidate
    is a prefix of a stored id. *)
Theorem cmd_show_short_candidate w repo_root db candidate :
  in_repo w repo_root ->
  fs w !! intent_db_of repo_root = Some (DbFile db) ->
  "intents" ∈ db_tables db ->
  String.length candidate < 6 ->
  cmd_show candidate w =
    (match find (fun r => String.eqb (id r) candidate) (db_intents db) with
     | Some row => Ok row
     | None => Exit (not_found_msg candidate)
     end, w) /\
  (Forall (fun r => String.length (id r) = 36) (db_intents db) ->
   cmd_show candidate w = (Exit (not_found_msg candidate), w) /\
   is_substring candidate (not_found_msg candidate) = true).
Proof.
  intros Hrepo Hdb Htable Hlen.
  pose proof (str_len_le candidate) as Hchars.
  assert (Hshort : str_len candidate < 6 \/ 36 <= str_len candidate) by lia.
  pose proof (cmd_show_exact w repo_root db candidate Hrepo Hdb Htable Hshort) as Hrun.
  split; [done|]. intros Hids. split.
  - rewrite Hrun, find_id_None; [done|].
    intros Hin. apply list_elem_of_In, list_elem_of_fmap in Hin as (r & -> & Hr).
    rewrite Forall_forall in Hids. specialize (Hids r Hr). lia.
  - unfold not_found_msg. apply is_substring_append.
Qed.

Lemma cmd_show_short_candidate_witness :
  String.prefix "3f2a" sample_id = true /\
  cmd_show "3f2a" sample_world = (Exit (not_found_msg "3f2a"), sample_world).
Proof.
  split; [reflexivity|].
  refine (proj1 (proj2 (cmd_show_short_candidate sample_world ["proj"]
            (mk_database required_tables [sample_intent]) "3f2a" _ _ _ _) _)).
  - reflexivity.
  - reflexivity.
  - by vm_compute.
  - simpl. lia.
  - repeat constructor.
Defined.

(** Writing a node whose name is not [.git] does not move the root the
    locator finds. *)
Lemma find_repo_root_from_insert files p n start :
  head p ≠ Some ".git" ->
  find_repo_root_from (<[p := n]> files) start = find_repo_root_from files start.
Proof.
  intros Hp. induction start as [|name up IH]; simpl; [done|].
  unfold is_dir. rewrite lookup_insert_ne.
  - by rewrite IH.
  - intros ->. by apply Hp.
Qed.

Lemma cmd_new_run w repo_root db intent_id now stdin
      line rest0 problem rest1 context rest2 constraints rest3 :
  in_repo w repo_root ->
  fs w !! intent_db_of repo_root = Some (DbFile db) ->
  "intents" ∈ db_tables db ->
  input stdin = Ok (line, rest0) ->
  strip line ≠ "" ->
  read_multiline rest0 = Ok (problem, rest1) ->
  read_multiline rest1 = Ok (context, rest2) ->
  read_multiline rest2 = Ok (constraints, rest3) ->
  ~ In intent_id (id <$> db_intents db) ->
  cmd_new intent_id now stdin w =
    (Ok intent_id,
     mk_world (cwd w)
       (<[ intent_db_of repo_root :=
             DbFile (mk_database (db_tables db)
                       (db_intents db ++
                          [mk_intent intent_id (strip line) problem context constraints
                                     "draft" now now])) ]> (fs w))).
Proof.
  intros Hrepo Hdb Htable Hline Htitle Hp Hc Hk Hfresh. unfold cmd_new, bind.
  rewrite (get_intent_dir_run _ _ Hrepo).
  fold (intent_db_of repo_root). rewrite (path_exists_Some _ _ _ Hdb). simpl.
  unfold lift. rewrite Hline.
  destruct (String.eqb_spec (strip line) "") as [Heq|_]; [done|].
  rewrite Hp, Hc, Hk.
  unfold sqlite_connect. rewrite Hdb.
  unfold insert_intent. rewrite decide_True by (by apply has_table_elem).
  rewrite existsb_id_false by done.
  reflexivity.
Qed.

(** C4: a title that is not empty once stripped and the three texts read
    from standard input are stored under the fresh id, and fetching that
    id returns the row with these four texts, the status [draft], and the
    same time as [created_at] and [updated_at].  The line typed for the
    title is a text (well-formed UTF-8); the id is the canonical text of
    a UUID, as [str(uuid.uuid4())] gives it, and fresh in the table. *)
Theorem cmd_new_then_cmd_show w repo_root db intent_id now stdin
      line rest0 problem rest1 context rest2 constraints rest3 :
  in_repo w repo_root ->
  fs w !! intent_db_of repo_root = Some (DbFile db) ->
  "intents" ∈ db_tables db ->
  input stdin = Ok (line, rest0) ->
  utf8_valid line = true ->
  strip line ≠ "" ->
  read_multiline rest0 = Ok (problem, rest1) ->
  read_multiline rest1 = Ok (context, rest2) ->
  read_multiline rest2 = Ok (constraints, rest3) ->
  uuid_text intent_id = true ->
  ~ In intent_id (id <$> db_intents db) ->
  exists w' row,
    cmd_new intent_id now stdin w = (Ok intent_id, w') /\
    cmd_show intent_id w' = (Ok row, w') /\
    row = mk_intent intent_id (strip line) problem context constraints "draft" now now /\
    status row = "draft" /\
    created_at row = updated_at row.
Proof.
  intros Hrepo Hdb Htable Hline Hutf8 Htitle Hp Hc Hk Huuid Hfresh.
  pose proof (uuid_text_length _ Huuid) as Hlen.
  set (row := mk_intent intent_id (strip line) problem context constraints "draft" now now).
  set (db' := mk_database (db_tables db) (db_intents db ++ [row])).
  exists (mk_world (cwd w) (<[ intent_db_of repo_root := DbFile db' ]> (fs w))), row.
  split.
  { eapply cmd_new_run; eauto. }
  split; [|done].
  rewrite (cmd_show_exact _ repo_root db').
  - assert (find (fun r => String.eqb (id r) intent_id) (db_intents db') = Some row)
      as -> by exact (find_id_app_fresh (db_intents db) row Hfresh).
    done.
  - unfold in_repo. simpl. rewrite find_repo_root_from_insert; [done|].
    by vm_compute.
  - simpl. apply lookup_insert_eq.
  - done.
  - right. lia.
Qed.

Lemma cmd_new_then_cmd_show_witness :
  exists w' row,
    cmd_new fresh_id "2024-05-02T09:30:00" typed_lines sample_world = (Ok fresh_id, w') /\
    cmd_show fresh_id w' = (Ok row, w') /\
    row = mk_intent fresh_id "Add rate limiting"
            (join nl ["Too many calls"; ""; "per client"]) "gateway" ""
            "draft" "2024-05-02T09:30:00" "2024-05-02T09:30:00" /\
    status row = "draft" /\
    created_at row = updated_at row.
Proof.
  apply (cmd_new_then_cmd_show sample_world ["proj"]
           (mk_database required_tables [sample_intent])
           fresh_id "2024-05-02T09:30:00" typed_lines
           "  Add rate limiting " (tail typed_lines)
           (join nl ["Too many calls"; ""; "per client"])
           ["gateway"; ""; ""; ""; ""; ""; ""]
           "gateway" [""; ""; ""] "" []).
  - reflexivity.
  - reflexivity.
  - by vm_compute.
  - reflexivity.
  - reflexivity.
  - by vm_compute.
  - reflexivity.
  - reflexivity.
  - reflexivity.
  - reflexivity.
  - simpl. intros [Heq|[]]. discriminate Heq.
Defined.

(** ** Listing *)

#[global] Instance created_desc_total : Total created_desc.
Proof.
  intros a b. unfold created_desc.
  destruct (total String.le (created_at a) (created_at b)); auto.
Qed.

#[global] Instance created_desc_transitive : Transitive created_desc.
Proof. intros a b c Hab Hbc. unfold created_desc in *. by etrans. Qed.

#[global] Instance created_desc_reflexive : Reflexive created_desc.
Proof. intros a. unfold created_desc. done. Qed.

Lemma ltb_not_le (a b : string) : String.ltb a b = true -> ~ String.le b a.
Proof.
  unfold String.ltb, String.le, String.leb. rewrite (String.compare_antisym a b).
  destruct (String.compare b a); simpl; [discriminate|discriminate|intros _ []].
Qed.

(** In a list sorted by a reflexive relation, an element that is not
    related to another one from the right stands before it. *)
Lemma StronglySorted_before {A} (R : relation A) `{!Reflexive R} (l : list A) a b :
  StronglySorted R l -> a ∈ l -> b ∈ l -> ~ R b a ->
  exists pre mid post, l = pre ++ a :: mid ++ b :: post.
Proof.
  intros Hsorted Ha Hb Hnot.
  apply list_elem_of_split in Ha as (pre & rest & ->).
  apply elem_of_app in Hb as [Hb|Hb].
  - exfalso. apply Hnot.
    apply (StronglySorted_app_1_elem_of R pre (a :: rest)); [done|done|left].
  - apply elem_of_cons in Hb as [->|Hb]; [by destruct Hnot|].
    apply list_elem_of_split in Hb as (mid & post & ->). eauto.
Qed.

Lemma cmd_list_run w repo_root db :
  in_repo w repo_root ->
  fs w !! intent_db_of repo_root = Some (DbFile db) ->
  "intents" ∈ db_tables db ->
  cmd_list w = (Ok (list_columns <$> merge_sort created_desc (db_intents db)), w).
Proof.
  intros Hrepo Hdb Htable. unfold cmd_list, bind.
  rewrite (get_intent_dir_run _ _ Hrepo).
  fold (intent_db_of repo_root). rewrite (path_exists_Some _ _ _ Hdb). cbn [negb].
  unfold sqlite_connect, lift, select_list. rewrite Hdb.
  by rewrite decide_True by (by apply has_table_elem).
Qed.

Lemma listed_before (rows : list intent) earlier later :
  In earlier rows -> In later rows ->
  String.ltb (created_at earlier) (created_at later) = true ->
  exists pre mid post,
    list_columns <$> merge_sort created_desc rows
      = pre ++ list_columns later :: mid ++ list_columns earlier :: post.
Proof.
  intros Hearlier Hlater Hlt.
  destruct (StronglySorted_before created_desc (merge_sort created_desc rows) later earlier)
    as (pre & mid & post & Heq).
  - apply StronglySorted_merge_sort; apply _.
  - rewrite merge_sort_Permutation. by apply list_elem_of_In.
  - rewrite merge_sort_Permutation. by apply list_elem_of_In.
  - unfold created_desc. by apply ltb_not_le.
  - exists (list_columns <$> pre), (list_columns <$> mid), (list_columns <$> post).
    rewrite Heq. by rewrite fmap_app, fmap_cons, fmap_app, fmap_cons.
Qed.

Lemma cmd_new_Ok_inv w repo_root db intent_id now stdin out w' :
  in_repo w repo_root ->
  fs w !! intent_db_of repo_root = Some (DbFile db) ->
  cmd_new intent_id now stdin w = (Ok out, w') ->
  exists new_title new_problem new_context new_constraints,
    out = intent_id /\ has_table "intents" db /\
    w' = mk_world (cwd w)
           (<[ intent_db_of repo_root :=
                 DbFile (mk_database (db_tables db)
                           (db_intents db ++
                              [mk_intent intent_id new_title new_problem new_context
                                         new_constraints "draft" now now])) ]> (fs w)).
Proof.
  intros Hrepo Hdb. unfold cmd_new, bind.
  rewrite (get_intent_dir_run _ _ Hrepo).
  fold (intent_db_of repo_root). rewrite (path_exists_Some _ _ _ Hdb). cbn [negb].
  unfold lift, sys_exit.
  destruct (input stdin) as [[line rest0]| |]; [|done..].
  destruct (String.eqb (strip line) ""); [done|].
  destruct (read_multiline rest0) as [[new_problem rest1]| |]; [|done..].
  destruct (read_multiline rest1) as [[new_context rest2]| |]; [|done..].
  destruct (read_multiline rest2) as [[new_constraints rest3]| |]; [|done..].
  unfold sqlite_connect. rewrite Hdb. unfold insert_intent.
  destruct (decide (has_table "intents" db)); [|done].
  destruct (existsb _ _); [done|].
  intros [= <- <-]. by exists (strip line), new_problem, new_context, new_constraints.
Qed.

(** C7: with [N] rows in [intents], [cmd_list] returns [N] rows, a
    permutation of the stored rows' listed columns, sorted by [created_at]
    from the greatest to the least; a row whose [created_at] is strictly
    greater than another's stands before it; and after two intents are
    created one after the other, the second at a strictly later time, the
    listing has the second before the first. *)
Theorem cmd_list_newest_first w repo_root db :
  in_repo w repo_root ->
  fs w !! intent_db_of repo_root = Some (DbFile db) ->
  "intents" ∈ db_tables db ->
  (exists rows,
     cmd_list w = (Ok rows, w) /\
     Permutation rows (list_columns <$> db_intents db) /\
     length rows = length (db_intents db) /\
     StronglySorted listed_desc rows /\
     forall earlier later,
       In earlier (db_intents db) -> In later (db_intents db) ->
       String.ltb (created_at earlier) (created_at later) = true ->
       exists pre mid post,
         rows = pre ++ list_columns later :: mid ++ list_columns earlier :: post) /\
  (forall id1 now1 stdin1 out1 w1 id2 now2 stdin2 out2 w2,
     cmd_new id1 now1 stdin1 w = (Ok out1, w1) ->
     cmd_new id2 now2 stdin2 w1 = (Ok out2, w2) ->
     String.ltb now1 now2 = true ->
     exists rows title1 title2 pre mid post,
       cmd_list w2 = (Ok rows, w2) /\
       length rows = 2 + length (db_intents db) /\
       rows = pre ++ (id2, title2, "draft", now2) :: mid
                  ++ (id1, title1, "draft", now1) :: post).
Proof.
  intros Hrepo Hdb Htable. split.
  - exists (list_columns <$> merge_sort created_desc (db_intents db)).
    split_and!.
    + by apply (cmd_list_run w repo_root).
    + by rewrite merge_sort_Permutation.
    + by rewrite length_fmap, merge_sort_Permutation.
    + apply (StronglySorted_fmap _ created_desc); [done|].
      apply StronglySorted_merge_sort; apply _.
    + apply listed_before.
  - intros id1 now1 stdin1 out1 w1 id2 now2 stdin2 out2 w2 Hnew1 Hnew2 Hlt.
    destruct (cmd_new_Ok_inv _ _ _ _ _ _ _ _ Hrepo Hdb Hnew1)
      as (t1 & p1 & c1 & k1 & -> & _ & ->).
    set (row1 := mk_intent id1 t1 p1 c1 k1 "draft" now1 now1) in *.
    set (db1 := mk_database (db_tables db) (db_intents db ++ [row1])) in *.
    assert (Hrepo1 : in_repo (mk_world (cwd w) (<[ intent_db_of repo_root := DbFile db1 ]> (fs w)))
                       repo_root).
    { unfold in_repo. simpl. rewrite find_repo_root_from_insert; [done|by vm_compute]. }
    assert (Hdb1 : fs (mk_world (cwd w) (<[ intent_db_of repo_root := DbFile db1 ]> (fs w)))
                     !! intent_db_of repo_root = Some (DbFile db1)).
    { simpl. apply lookup_insert_eq. }
    destruct (cmd_new_Ok_inv _ _ _ _ _ _ _ _ Hrepo1 Hdb1 Hnew2)
      as (t2 & p2 & c2 & k2 & -> & _ & ->).
    set (row2 := mk_intent id2 t2 p2 c2 k2 "draft" now2 now2) in *.
    set (db2 := mk_database (db_tables db1) (db_intents db1 ++ [row2])) in *.
    destruct (listed_before (db_intents db2) row1 row2) as (pre & mid & post & Heq).
    { simpl. apply in_or_app. left. apply in_or_app. right. by left. }
    { simpl. apply in_or_app. right. by left. }
    { done. }
    exists (list_columns <$> merge_sort created_desc (db_intents db2)), t1, t2, pre, mid, post.
    split_and!.
    + apply (cmd_list_run _ repo_root db2).
      * unfold in_repo. simpl. rewrite find_repo_root_from_insert; [|by vm_compute].
        rewrite find_repo_root_from_insert; [done|by vm_compute].
      * simpl. apply lookup_insert_eq.
      * done.
    + rewrite length_fmap, merge_sort_Permutation. simpl.
      rewrite !length_app. simpl. lia.
    + exact Heq.
Qed.

(** ** Metadata store *)

Section meta_facts.
Context `{Platform}.

(** A descriptor that decodes to a value in which the three fields are
    found is left as it is. *)
Lemma ensure_meta_json_valid now w repo_root content data :
  fs w !! meta_json_of repo_root = Some (File content) ->
  strip content ≠ "" ->
  json_loads (strip content) = Some data ->
  all_in required_fields data = Ok true ->
  ensure_meta_json now (repo_root // ".intent") repo_root w = (Ok tt, w).
Proof.
  intros Hfile Hcontent Hdata Hall.
  unfold ensure_meta_json, bind, meta_needs_init, bind, try_except.
  fold (meta_json_of repo_root). rewrite (path_exists_Some _ _ _ Hfile). cbn [negb].
  unfold read_text. rewrite Hfile.
  destruct (String.eqb_spec (strip content) "") as [Heq|_]; [done|].
  unfold lift. rewrite Hdata, Hall. reflexivity.
Qed.

Lemma ensure_meta_json_missing now w repo_root :
  fs w !! meta_json_of repo_root = None ->
  ensure_meta_json now (repo_root // ".intent") repo_root w
    = (Ok tt, with_fresh_meta now repo_root w).
Proof.
  intros Hfile.
  unfold ensure_meta_json, bind, meta_needs_init, bind.
  fold (meta_json_of repo_root). rewrite (path_exists_None _ _ Hfile). cbn [negb].
  unfold ret, try_except, write_text. by rewrite Hfile.
Qed.

Lemma ensure_meta_json_blank now w repo_root content :
  fs w !! meta_json_of repo_root = Some (File content) ->
  strip content = "" ->
  ensure_meta_json now (repo_root // ".intent") repo_root w
    = (Ok tt, with_fresh_meta now repo_root w).
Proof.
  intros Hfile Hcontent.
  unfold ensure_meta_json, bind, meta_needs_init, bind, try_except.
  fold (meta_json_of repo_root). rewrite (path_exists_Some _ _ _ Hfile). cbn [negb].
  unfold read_text. rewrite Hfile, Hcontent. cbn [String.eqb].
  unfold ret, write_text. by rewrite Hfile.
Qed.

Lemma ensure_meta_json_unparsable now w repo_root content :
  fs w !! meta_json_of repo_root = Some (File content) ->
  json_loads (strip content) = None ->
  ensure_meta_json now (repo_root // ".intent") repo_root w
    = (Ok tt, with_fresh_meta now repo_root w).
Proof.
  intros Hfile Hdata.
  unfold ensure_meta_json, bind, meta_needs_init, bind, try_except.
  fold (meta_json_of repo_root). rewrite (path_exists_Some _ _ _ Hfile). cbn [negb].
  unfold read_text. rewrite Hfile.
  destruct (String.eqb (strip content) "").
  - unfold ret, write_text. by rewrite Hfile.
  - unfold lift. rewrite Hdata. cbn [is_JSONDecodeError orb].
    unfold ret, write_text. by rewrite Hfile.
Qed.

(** A descriptor that decodes to an object, a list or a string in which
    one of the three fields is not found is written again. *)
Lemma ensure_meta_json_lacks_field now w repo_root content data :
  fs w !! meta_json_of repo_root = Some (File content) ->
  json_loads (strip content) = Some data ->
  all_in required_fields data = Ok false ->
  ensure_meta_json now (repo_root // ".intent") repo_root w
    = (Ok tt, with_fresh_meta now repo_root w).
Proof.
  intros Hfile Hdata Hall.
  unfold ensure_meta_json, bind, meta_needs_init, bind, try_except.
  fold (meta_json_of repo_root). rewrite (path_exists_Some _ _ _ Hfile). cbn [negb].
  unfold read_text. rewrite Hfile.
  destruct (String.eqb (strip content) "").
  - unfold ret, write_text. by rewrite Hfile.
  - unfold lift. rewrite Hdata, Hall. cbn [negb].
    unfold ret, write_text. by rewrite Hfile.
Qed.

(** C8, at the failing inputs: a descriptor whose text decodes to [null],
    to a boolean or to a number has none of the three fields, yet
    [ensure_meta_json] does not write it again: the test for the first
    field raises [TypeError], which no handler catches, and the file stays
    as it was. *)
Theorem ensure_meta_json_scalar_descriptor now w repo_root content data :
  fs w !! meta_json_of repo_root = Some (File content) ->
  strip content ≠ "" ->
  json_loads (strip content) = Some data ->
  (data = JNull \/ (exists b, data = JBool b) \/ (exists literal, data = JNum literal)) ->
  ensure_meta_json now (repo_root // ".intent") repo_root w = (Raise TypeError, w).
Proof.
  intros Hfile Hcontent Hdata Hscalar.
  unfold ensure_meta_json, bind, meta_needs_init, bind, try_except.
  fold (meta_json_of repo_root). rewrite (path_exists_Some _ _ _ Hfile). cbn [negb].
  unfold read_text. rewrite Hfile.
  destruct (String.eqb_spec (strip content) "") as [Heq|_]; [done|].
  unfold lift. rewrite Hdata.
  destruct Hscalar as [->|[[b ->]|[literal ->]]]; reflexivity.
Qed.

(** ** Initialisation *)

(** C5: in a repository where [.intent] is a directory, [intent.db] is a
    database whose tables are exactly the required three and [meta.json]
    decodes to an object with the three fields, [init_intent_structure]
    returns the directory, with no error, and leaves the world as it was:
    every file and directory, the database with its tables and rows, and
    the text of the descriptor.  In the same world [create_database_schema]
    declares the tables again without an error or a change. *)
Theorem init_intent_structure_idempotent now w repo_root db content members :
  in_repo w repo_root ->
  fs w !! (repo_root // ".intent") = Some Dir ->
  fs w !! intent_db_of repo_root = Some (DbFile db) ->
  db_tables db = required_tables ->
  fs w !! meta_json_of repo_root = Some (File content) ->
  strip content ≠ "" ->
  json_loads (strip content) = Some (JObj members) ->
  (forall field, In field required_fields -> In field (fst <$> members)) ->
  init_intent_structure now w = (Ok (repo_root // ".intent"), w) /\
  create_database_schema (intent_db_of repo_root) w = (Ok tt, w).
Proof.
  intros Hrepo Hdir Hdb Htables Hmeta Hcontent Hdata Hfields.
  split; [|by apply (create_database_schema_existing _ _ db); [|rewrite Htables]].
  unfold init_intent_structure, bind, get_cwd, find_repo_root.
  unfold in_repo in Hrepo. rewrite Hrepo.
  unfold try_except at 1. unfold mkdir_exist_ok. rewrite Hdir.
  unfold try_except at 1. fold (intent_db_of repo_root).
  rewrite (ensure_database_schema_superset _ _ db Hdb) by (by rewrite Htables).
  assert (Hkey : forall field, In field required_fields ->
            existsb (fun kv : string * json => String.eqb field (fst kv)) members = true).
  { intros field Hin. apply existsb_exists.
    specialize (Hfields field Hin).
    apply list_elem_of_In, list_elem_of_fmap in Hfields as (kv & -> & Hkv).
    exists kv. split; [by apply list_elem_of_In|apply String.eqb_refl]. }
  assert (Hall : all_in required_fields (JObj members) = Ok true).
  { unfold required_fields at 1. cbn [all_in py_in].
    rewrite (Hkey "repo_path"), (Hkey "created_at"), (Hkey "schema_version");
      [done|simpl; auto..]. }
  by rewrite (ensure_meta_json_valid now w repo_root content (JObj members)
                Hmeta Hcontent Hdata Hall).
Qed.

End meta_facts.

(** ** What the record commands check *)

Lemma sqlite_connect_Some w p n :
  fs w !! p = Some n -> sqlite_connect p w = (open_node n, w).
Proof.
  intros Hp. unfold sqlite_connect. rewrite Hp. by destruct n as [|[|? ?]|?].
Qed.













(** The outcomes look at the table names only to see whether one of them
    is a name of [intents]. *)
Lemma outcomes_ignore_other_tables tables1 tables2 rows :
  (has_table "intents" (mk_database tables1 rows)
   <-> has_table "intents" (mk_database tables2 rows)) ->
  (forall intent_id now stdin,
     new_outcome intent_id now stdin (DbFile (mk_database tables1 rows))
       = new_outcome intent_id now stdin (DbFile (mk_database tables2 rows))) /\
  list_outcome (DbFile (mk_database tables1 rows))
    = list_outcome (DbFile (mk_database tables2 rows)) /\
  (forall candidate,
     show_outcome candidate (DbFile (mk_database tables1 rows))
       = show_outcome candidate (DbFile (mk_database tables2 rows))).
Proof.
  intros Hsame.
  set (db1 := mk_database tables1 rows). set (db2 := mk_database tables2 rows).
  assert (Hdec : forall (A : Type) (x y : A),
            (if decide (has_table "intents" db1) then x else y)
            = (if decide (has_table "intents" db2) then x else y)).
  { intros A x y.
    destruct (decide (has_table "intents" db1)), (decide (has_table "intents" db2));
      tauto. }
  assert (Hfetch : forall full, fetch_outcome full db1 = fetch_outcome full db2).
  { intros full. unfold fetch_outcome, select_by_id. by rewrite Hdec. }
  split_and!.
  - intros intent_id now stdin. unfold new_outcome.
    destruct (input stdin) as [[line rest0]| |]; simpl; [|done..].
    destruct (String.eqb (strip line) ""); [done|].
    destruct (read_multiline rest0) as [[new_problem rest1]| |]; simpl; [|done..].
    destruct (read_multiline rest1) as [[new_context rest2]| |]; simpl; [|done..].
    destruct (read_multiline rest2) as [[new_constraints rest3]| |]; simpl; [|done..].
    unfold insert_intent. rewrite Hdec.
    destruct (decide (has_table "intents" db2)); [|done].
    by destruct (existsb _ _).
  - unfold list_outcome, select_list. cbn [open_node and_then]. by rewrite Hdec.
  - intros candidate. unfold show_outcome. cbn [open_node and_then].
    destruct (Nat.leb 6 (str_len candidate)
              && Nat.ltb (str_len candidate) 36); cbn [and_then]; [|apply Hfetch].
    unfold resolve_outcome, select_ids_like. rewrite Hdec.
    destruct (decide (has_table "intents" db2)); cbn [and_then]; [|done].
    destruct (merge_sort _ _) as [|m1 [|m2 ms]]; cbn [and_then]; [done|apply Hfetch|done].
Qed.


(** ** Running the initialisation twice *)

Section init_twice.
Context `{Platform}.

Lemma try_except_exit_Ok {A} (m : M A) caught (handler : exn -> string) w a w' :
  try_except m caught (fun e => sys_exit (handler e)) w = (Ok a, w') ->
  m w = (Ok a, w').
Proof.
  unfold try_except, sys_exit. destruct (m w) as [[?| |e] ?]; [done|done|].
  by destruct (caught e).
Qed.

Lemma mkdir_exist_ok_Ok p w w' :
  mkdir_exist_ok p w = (Ok tt, w') ->
  fs w' !! p = Some Dir /\ cwd w' = cwd w /\
  forall q, q ≠ p -> fs w' !! q = fs w !! q.
Proof.
  unfold mkdir_exist_ok, set_node.
  destruct (fs w !! p) as [[| |]|] eqn:Hp; intros Heq; simplify_eq/=.
  - done.
  - split_and!; [apply lookup_insert_eq|done|]. intros q Hq. by apply lookup_insert_ne.
Qed.

(** The database [create_database_schema] writes where there was none. *)
Lemma fresh_schema :
  create_table_if_not_exists "decisions"
    (create_table_if_not_exists "assumptions"
       (create_table_if_not_exists "intents" empty_database))
  = mk_database required_tables [].
Proof. by vm_compute. Qed.

Lemma ensure_database_schema_Ok p w w' :
  ensure_database_schema p w = (Ok tt, w') ->
  (exists db, fs w' !! p = Some (DbFile db) /\ required_tables ⊆ db_tables db) /\
  cwd w' = cwd w /\
  forall q, q ≠ p -> fs w' !! q = fs w !! q.
Proof.
  unfold ensure_database_schema, bind.
  destruct (fs w !! p) as [n|] eqn:Hp.
  - rewrite (path_exists_Some _ _ _ Hp). cbn [negb].
    rewrite (sqlite_connect_Some _ _ _ Hp).
    destruct (open_node n) as [db| |] eqn:Hopen; [|done..].
    destruct (decide (select_table_names_in required_tables db ≠ required_tables))
      as [|Heq]; [done|].
    intros [= <-]. apply dec_stable in Heq.
    assert (Hsub : required_tables ⊆ db_tables db).
    { intros x Hx. rewrite <- Heq in Hx. unfold select_table_names_in in Hx.
      apply elem_of_filter in Hx. tauto. }
    split_and!; [|done..].
    destruct n as [|[|? ?]|db']; simplify_eq/=. by exists db.
  - rewrite (path_exists_None _ _ Hp). cbn [negb].
    unfold create_database_schema, bind, sqlite_connect. rewrite Hp.
    unfold sqlite_commit, set_node. intros [= <-]. simpl.
    split_and!; [|done|].
    + rewrite fresh_schema. eexists. split; [apply lookup_insert_eq|done].
    + intros q Hq. by apply lookup_insert_ne.
Qed.

Lemma meta_needs_init_world p w : snd (meta_needs_init p w) = w.
Proof.
  unfold meta_needs_init, bind, path_exists, try_except, read_text, lift, ret.
  repeat case_match; by simplify_eq/=.
Qed.

Lemma meta_needs_init_false p w :
  fst (meta_needs_init p w) = Ok false -> descriptor_valid w p.
Proof.
  unfold meta_needs_init, bind, try_except, lift, ret.
  destruct (fs w !! p) as [n|] eqn:Hp.
  - rewrite (path_exists_Some _ _ _ Hp). cbn [negb].
    destruct (read_text p w) as [[text| |e] w0] eqn:Hread.
    + assert (w0 = w) as ->.
      { unfold read_text in Hread. repeat case_match; by simplify_eq/=. }
      destruct (String.eqb_spec (strip text) "") as [|Hne]; [done|].
      destruct (json_loads (strip text)) as [data|] eqn:Hdata; [|done].
      destruct (all_in required_fields data) as [[|]| |e] eqn:Hall; simpl;
        [|done|done|by destruct (is_JSONDecodeError e || is_OSError e)].
      intros _. exists text, data. rewrite Hp. eauto 10.
    + done.
    + by destruct (is_JSONDecodeError e || is_OSError e).
  - by rewrite (path_exists_None _ _ Hp).
Qed.

Lemma meta_needs_init_valid p w :
  descriptor_valid w p -> meta_needs_init p w = (Ok false, w).
Proof.
  intros (text & data & [n Hp] & Hread & Hne & Hdata & Hall).
  unfold meta_needs_init, bind, try_except, lift, ret.
  rewrite (path_exists_Some _ _ _ Hp). cbn [negb]. rewrite Hread.
  destruct (String.eqb_spec (strip text) "") as [|_]; [done|].
  by rewrite Hdata, Hall.
Qed.

Lemma ensure_meta_json_Ok now repo_root w w' :
  dumps_loads_back repo_root now ->
  ensure_meta_json now (repo_root // ".intent") repo_root w = (Ok tt, w') ->
  descriptor_valid w' (meta_json_of repo_root) /\
  cwd w' = cwd w /\
  forall q, q ≠ meta_json_of repo_root -> fs w' !! q = fs w !! q.
Proof.
  intros Hback. unfold ensure_meta_json, bind. fold (meta_json_of repo_root).
  pose proof (meta_needs_init_world (meta_json_of repo_root) w) as Hworld.
  pose proof (meta_needs_init_false (meta_json_of repo_root) w) as Hvalid.
  destruct (meta_needs_init (meta_json_of repo_root) w) as [[[|]| |] w0];
    simpl in Hworld, Hvalid; subst w0; [| |done..].
  - intros Hwrite. apply try_except_exit_Ok in Hwrite.
    unfold write_text, set_node in Hwrite.
    assert (w' = with_fresh_meta now repo_root w) as ->.
    { destruct (fs w !! meta_json_of repo_root) as [[| |]|]; by simplify_eq/=. }
    unfold with_fresh_meta. simpl. split_and!; [|done|].
    + destruct Hback as (Hne & data & Hdata & Hall).
      exists (json_dumps (meta_data repo_root now)), data.
      unfold read_text. simpl. rewrite lookup_insert_eq. eauto 10.
    + intros q Hq. by apply lookup_insert_ne.
  - intros [= <-]. split_and!; [by apply Hvalid|done..].
Qed.

(** In a world where the directory, a database with the required tables
    and a valid descriptor are in place, the initialisation changes
    nothing. *)
Lemma init_intent_structure_settled now w repo_root :
  in_repo w repo_root ->
  fs w !! (repo_root // ".intent") = Some Dir ->
  (exists db, fs w !! intent_db_of repo_root = Some (DbFile db) /\
              required_tables ⊆ db_tables db) ->
  descriptor_valid w (meta_json_of repo_root) ->
  init_intent_structure now w = (Ok (repo_root // ".intent"), w).
Proof.
  intros Hrepo Hdir (db & Hdb & Hsub) Hvalid.
  unfold init_intent_structure, bind, get_cwd, find_repo_root.
  unfold in_repo in Hrepo. rewrite Hrepo.
  unfold try_except at 1. unfold mkdir_exist_ok. rewrite Hdir.
  unfold try_except at 1. fold (intent_db_of repo_root).
  rewrite (ensure_database_schema_superset _ _ db Hdb Hsub).
  unfold ensure_meta_json, bind. fold (meta_json_of repo_root).
  by rewrite (meta_needs_init_valid _ _ Hvalid).
Qed.

Lemma find_repo_root_from_ext files files' start :
  (forall p, files' !! (p // ".git") = files !! (p // ".git")) ->
  find_repo_root_from files' start = find_repo_root_from files start.
Proof.
  intros Hsame. induction start as [|name up IH]; simpl; [done|].
  unfold is_dir. by rewrite Hsame, IH.
Qed.

(** When the initialisation has succeeded, running it again, at any later
    time, succeeds with the same directory and changes nothing, provided
    [json.loads] reads back the descriptor [json.dumps] writes. *)
Lemma init_intent_structure_twice now later w intent_dir w1 :
  (forall repo_root, in_repo w repo_root -> dumps_loads_back repo_root now) ->
  init_intent_structure now w = (Ok intent_dir, w1) ->
  init_intent_structure later w1 = (Ok intent_dir, w1).
Proof.
  intros Hback. unfold init_intent_structure at 1. unfold bind, get_cwd, find_repo_root.
  destruct (find_repo_root_from (fs w) (cwd w)) as [repo_root| |] eqn:Hrepo; [|done..].
  destruct (try_except (mkdir_exist_ok (repo_root // ".intent")) _ _ w)
    as [[[]| |] wa] eqn:Hmkdir; [|done..].
  apply try_except_exit_Ok, mkdir_exist_ok_Ok in Hmkdir as (Hdir & Hcwd_a & Hfs_a).
  fold (intent_db_of repo_root).
  destruct (try_except (ensure_database_schema (intent_db_of repo_root)) _ _ wa)
    as [[[]| |] wb] eqn:Hschema; [|done..].
  apply try_except_exit_Ok, ensure_database_schema_Ok in Hschema
    as ((db & Hdb & Hsub) & Hcwd_b & Hfs_b).
  destruct (ensure_meta_json now (repo_root // ".intent") repo_root wb)
    as [[[]| |] wc] eqn:Hmeta; [|done..].
  apply (ensure_meta_json_Ok _ _ _ _ (Hback _ Hrepo)) in Hmeta
    as (Hvalid & Hcwd_c & Hfs_c).
  unfold ret. intros [= <- <-].
  apply init_intent_structure_settled.
  - unfold in_repo. rewrite Hcwd_c, Hcwd_b, Hcwd_a, <- Hrepo.
    apply find_repo_root_from_ext. intros p.
    rewrite Hfs_c, Hfs_b, Hfs_a; done.
  - rewrite Hfs_c, Hfs_b; done.
  - exists db. split; [|done]. by rewrite Hfs_c.
  - done.
Qed.

End init_twice.

(** ** Examples *)

Lemma init_intent_structure_idempotent_witness :
  @init_intent_structure sample_platform "2024-05-01T09:00:00" bare_world
    = (Ok (["proj"] // ".intent"), initialised_world) /\
  @init_intent_structure sample_platform "2024-06-15T12:00:00" initialised_world
    = (Ok (["proj"] // ".intent"), initialised_world) /\
  create_database_schema (intent_db_of ["proj"]) initialised_world
    = (Ok tt, initialised_world).
Proof.
  split; [by vm_compute|].
  apply (@init_intent_structure_idempotent sample_platform "2024-06-15T12:00:00"
           initialised_world ["proj"] (mk_database required_tables [])
           (sample_dumps sample_meta)
           [("repo_path", JStr "/proj"); ("created_at", JStr "2024-05-01T09:00:00");
            ("schema_version", JStr "0.1")]).
  - by vm_compute.
  - by vm_compute.
  - by vm_compute.
  - reflexivity.
  - by vm_compute.
  - by vm_compute.
  - by vm_compute.
  - intros field Hin. simpl in *. tauto.
Defined.

Lemma ensure_meta_json_scalar_descriptor_witness :
  @ensure_meta_json sample_platform "2024-06-15T12:00:00" (["proj"] // ".intent") ["proj"]
    null_meta_world = (Raise TypeError, null_meta_world).
Proof.
  apply (@ensure_meta_json_scalar_descriptor sample_platform "2024-06-15T12:00:00"
           null_meta_world ["proj"] "null" JNull).
  - reflexivity.
  - by vm_compute.
  - reflexivity.
  - by left.
Defined.

Lemma two_database_has_intents : "intents" ∈ db_tables two_database.
Proof. by vm_compute. Qed.

Lemma find_intent_by_prefix_cases_example :
  find_intent_by_prefix (intent_db_of ["proj"]) "ffffffff" two_world
    = (Exit (no_match_msg "ffffffff"), two_world) /\
  find_intent_by_prefix (intent_db_of ["proj"]) "3f2a9c1e-7" two_world
    = (Ok sample_id, two_world) /\
  find_intent_by_prefix (intent_db_of ["proj"]) "3f2a9c1e" two_world
    = (Exit (ambiguous_msg "3f2a9c1e" [second_id; sample_id]), two_world).
Proof.
  split_and!.
  - apply (find_intent_by_prefix_cases two_world (intent_db_of ["proj"]) two_database
             "ffffffff" eq_refl two_database_has_intents).
    reflexivity.
  - apply (find_intent_by_prefix_cases two_world (intent_db_of ["proj"]) two_database
             "3f2a9c1e-7" eq_refl two_database_has_intents).
    reflexivity.
  - apply (find_intent_by_prefix_cases two_world (intent_db_of ["proj"]) two_database
             "3f2a9c1e" eq_refl two_database_has_intents).
    simpl. lia.
Qed.

Lemma cmd_list_newest_first_witness :
  exists rows,
    cmd_list two_world = (Ok rows, two_world) /\
    rows = [list_columns second_intent; list_columns sample_intent] /\
    StronglySorted listed_desc rows.
Proof.
  destruct (cmd_list_newest_first two_world ["proj"] two_database
              eq_refl eq_refl two_database_has_intents)
    as [(rows & Hrun & _ & _ & Hsorted & _) _].
  exists rows. split; [exact Hrun|]. split; [|exact Hsorted].
  assert (Hrows : cmd_list two_world
                  = (Ok [list_columns second_intent; list_columns sample_intent], two_world))
    by (by vm_compute).
  rewrite Hrun in Hrows. by injection Hrows.
Defined.


Lemma init_intent_structure_twice_example :
  @init_intent_structure sample_platform "2024-06-15T12:00:00" initialised_world
    = (Ok (["proj"] // ".intent"), initialised_world).
Proof.
  apply (@init_intent_structure_twice sample_platform "2024-05-01T09:00:00"
           "2024-06-15T12:00:00" bare_world).
  - intros repo_root Hrepo. assert (repo_root = ["proj"]) as ->.
    { unfold in_repo in Hrepo. vm_compute in Hrepo. congruence. }
    split; [by vm_compute|]. exists sample_meta. split; by vm_compute.
  - by vm_compute.
Qed.
